(** * Browser automation session manager (the Chromium extension)

    A shallow embedding of the browser extension: the two module-level
    handles [browser] and [page], the executable lookup [findChrome], the
    lazy acquisition [getPage], the nine registered tools and the
    [session_shutdown] handler.

    The remote-browser driver (puppeteer) and the file system are the
    environment.  Every driver method the extension calls is a constructor
    of [call]; an environment answers a call with a value or with a thrown
    error and moves to a new world.  The extension's code is written in a
    state-and-exception monad over the two handles, the world, and a
    chronological record of the driver calls performed. *)

From Stdlib Require Import ZArith List String Ascii Bool Lia.
From Stdlib Require Import DecimalString.
Import ListNotations.
Open Scope string_scope.
Open Scope Z_scope.

(** ** JavaScript values used by the extension *)

(** A JavaScript string is a sequence of UTF-16 code units; a [string]
    stands for it, one character per code unit, so that [length] is the
    JavaScript [.length]. *)
Definition str_length (s : string) : Z := Z.of_nat (String.length s).

(** [s.slice(0, n)] for an integer [n]: a negative end counts from the end
    of the string, an end past the string is clamped to it. *)
Definition slice0 (s : string) (n : Z) : string :=
  let len := str_length s in
  let stop := if n <? 0 then Z.max (len + n) 0 else Z.min n len in
  String.substring 0 (Z.to_nat stop) s.

(** The check mark U+2713 that starts every confirmation line, as the three
    bytes of its UTF-8 encoding; no length is ever taken of it. *)
Definition check_mark : string :=
  String (ascii_of_nat 226) (String (ascii_of_nat 156)
    (String (ascii_of_nat 147) EmptyString)).

(** A number interpolated into a template string: the decimal digits of
    an integer.  The template literal prints these digits for every
    integer up to [max_safe_integer] in magnitude; larger numbers and
    fractions are outside this rendering. *)
Definition string_of_Z (z : Z) : string :=
  NilZero.string_of_int (Z.to_int z).

(** The values that appear in [details]. *)
Inductive jsval : Type :=
| JUndefined
| JBool (b : bool)
| JNum (z : Z)
| JStr (s : string).

Definition js_opt_bool (o : option bool) : jsval :=
  match o with Some b => JBool b | None => JUndefined end.

Definition js_opt_str (o : option string) : jsval :=
  match o with Some s => JStr s | None => JUndefined end.

(** Truthiness of an optional boolean, of an optional string (the empty
    string is falsy) and of an optional number ([0] is falsy). *)
Definition truthy_bool (o : option bool) : bool :=
  match o with Some b => b | None => false end.

Definition truthy_str (o : option string) : bool :=
  match o with
  | Some s => negb (String.eqb s "")
  | None => false
  end.

(** [x || d] on an optional integer-valued number. *)
Definition num_or (x : option Z) (d : Z) : Z :=
  match x with
  | Some z => if z =? 0 then d else z
  | None => d
  end.

(** A thrown JavaScript error: its constructor name and its message. *)
Record err : Type := mkErr { err_name : string; err_message : string }.

Definition Error (msg : string) : err := mkErr "Error" msg.

(** Reading a property of [null]. *)
Definition null_deref (prop : string) : err :=
  mkErr "TypeError"
        ("Cannot read properties of null (reading '" ++ prop ++ "')").

Inductive outcome (A : Type) : Type :=
| Ok (a : A)
| Throw (e : err).
Arguments Ok {A} a.
Arguments Throw {A} e.

(** ** Result envelope *)

Inductive content_item : Type :=
| Text (text : string)
| Image (data : string) (mimeType : string).

(** What [execute] returns.  The object literals of the extension have the
    two properties [content] and [details]; [isError] is [None] when the
    property is absent. *)
Record Envelope : Type := mkEnvelope {
  content : list content_item;
  details : list (string * jsval);
  isError : option bool
}.

(** ** The driver *)

Definition Browser := nat.
Definition Page := nat.
Definition Element := nat.

(** The driver methods called by the extension, indexed by what they
    resolve to.  [Query] is [p.$(selector)]; [ElementTextContent] and
    [BodyInnerText] are the two [evaluate] calls of [browser_get_text];
    [ScrollBy], [ScrollToBottom], [ScrollToTop] and [ScrollY] are the
    [evaluate] calls of [browser_scroll].  [ClickAndWaitForNavigation] is
    [Promise.all([p.waitForNavigation(..), p.click(selector)])]: the two
    promises run together and their join is one interaction with the
    driver, rejected with whichever rejection comes first. *)
Inductive call : Type -> Type :=
| Launch (headless : bool) (executablePath : string) (args : list string)
    : call Browser
| NewPage (b : Browser) : call Page
| SetViewport (p : Page) (width height : Z) : call unit
| SetUserAgent (p : Page) (ua : string) : call unit
| Goto (p : Page) (url : string) (waitUntil : string) : call unit
| Title (p : Page) : call string
| Url (p : Page) : call string
| Query (p : Page) (selector : string) : call (option Element)
| ElementScreenshot (e : Element) : call string
| PageScreenshot (p : Page) (fullPage : option bool) : call string
| Click (p : Page) (selector : string) : call unit
| ClickAndWaitForNavigation (p : Page) (selector : string)
    (waitUntil : string) : call unit
| ElementClick (e : Element) (clickCount : Z) : call unit
| ElementPress (e : Element) (key : string) : call unit
| ElementType (e : Element) (text : string) : call unit
| ElementTextContent (e : Element) : call string
| BodyInnerText (p : Page) : call string
| ScrollBy (p : Page) (dy : Z) : call unit
| ScrollToBottom (p : Page) : call unit
| ScrollToTop (p : Page) : call unit
| ScrollY (p : Page) : call Z
| WaitForSelector (p : Page) (selector : string) (timeout : option Z)
    : call unit
| Content (p : Page) : call string
| BrowserClose (b : Browser) : call unit.

(** One entry of the record of driver calls: the call and, when it was
    rejected, the error it was rejected with. *)
Record event : Type := Ev {
  ev_call : {A : Type & call A};
  ev_err : option err
}.

Definition ev_ok (e : event) : bool :=
  match ev_err e with None => true | Some _ => false end.

Definition is_launch (e : event) : bool :=
  match projT2 (ev_call e) with
  | Launch _ _ _ => true
  | NewPage _ => true
  | _ => false
  end.

(** A launch that resolved: a browser process was acquired. *)
Definition launched (e : event) : bool :=
  match projT2 (ev_call e) with
  | Launch _ _ _ => ev_ok e
  | _ => false
  end.

Definition is_click (e : event) : bool :=
  match projT2 (ev_call e) with
  | Click _ _ => true
  | ClickAndWaitForNavigation _ _ _ => true
  | _ => false
  end.

Definition is_close (e : event) : bool :=
  match projT2 (ev_call e) with
  | BrowserClose _ => true
  | _ => false
  end.

Definition is_query (sel : string) (e : event) : bool :=
  match projT2 (ev_call e) with
  | Query _ s => String.eqb s sel
  | _ => false
  end.

(** The external cancellation signal handed to [execute]: whether it is
    aborted, as a function of logical time (the number of driver calls
    performed so far). *)
Record AbortSignal : Type := { aborted_at : nat -> bool }.

(** The candidate browser executables, in probing order. *)
Definition chrome_paths : list string :=
  [ "/usr/bin/chromium-browser";
    "/usr/bin/chromium";
    "/usr/bin/google-chrome";
    "/usr/bin/google-chrome-stable";
    "/usr/bin/chrome" ].

Definition chrome_not_found : err :=
  Error "Chrome/Chromium not found. Install with: sudo dnf install chromium".

Definition launch_args : list string :=
  [ "--no-sandbox";
    "--disable-setuid-sandbox";
    "--disable-dev-shm-usage";
    "--disable-gpu";
    "--disable-web-security";
    "--disable-features=IsolateOrigins,site-per-process" ].

Definition user_agent : string :=
  "Mozilla/5.0 (X11; Linux x86_64) AppleWebKit/537.36 (KHTML, like Gecko) Chrome/120.0.0.0 Safari/537.36".

Definition truncation_marker : string :=
  String (ascii_of_nat 10) "...[truncated]".

(** ** Tool parameters, as [execute] receives them *)

Module NavigateParams.
Record t : Type := mk { url : string; waitForLoad : option bool }.
End NavigateParams.

Module ScreenshotParams.
Record t : Type := mk { fullPage : option bool; selector : option string }.
End ScreenshotParams.

Module ClickParams.
Record t : Type := mk { selector : string; waitForNavigation : option bool }.
End ClickParams.

Module TypeParams.
Record t : Type := mk {
  selector : string;
  text : string;
  clearFirst : option bool;
  pressEnter : option bool
}.
End TypeParams.

Module GetTextParams.
Record t : Type := mk { selector : option string; maxLength : option Z }.
End GetTextParams.

Module ScrollParams.
Record t : Type := mk { direction : string; amount : option Z }.
End ScrollParams.

Module WaitForParams.
Record t : Type := mk { selector : string; timeout : option Z }.
End WaitForParams.

Module DebugParams.
Record t : Type := mk { includeHtml : option bool }.
End DebugParams.

(** One request to a registered tool. *)
Inductive action : Type :=
| Navigate (params : NavigateParams.t)
| Screenshot (params : ScreenshotParams.t)
| ClickElement (params : ClickParams.t)
| TypeText (params : TypeParams.t)
| GetText (params : GetTextParams.t)
| Scroll (params : ScrollParams.t)
| WaitFor (params : WaitForParams.t)
| Debug (params : DebugParams.t)
| Close.

Definition tool_name (a : action) : string :=
  match a with
  | Navigate _ => "browser_navigate"
  | Screenshot _ => "browser_screenshot"
  | ClickElement _ => "browser_click"
  | TypeText _ => "browser_type"
  | GetText _ => "browser_get_text"
  | Scroll _ => "browser_scroll"
  | WaitFor _ => "browser_wait_for"
  | Debug _ => "browser_debug"
  | Close => "browser_close"
  end.

(** The eight operations that act on the page (all tools but close). *)
Definition is_page_action (a : action) : bool :=
  match a with Close => false | _ => true end.

Definition element_not_found (selector : string) : err :=
  Error ("Element not found: " ++ selector).

(** ** The environment

    A type of worlds, the file-system test [accessSync(p, X_OK)] (true
    when it returns, false when it throws) and the driver, which answers a
    call in a world with its outcome and the next world. *)
Class Env : Type := {
  W : Type;
  access_x : W -> string -> bool;
  driver : forall A : Type, call A -> W -> outcome A * W
}.

(** ** A simulated environment

    A small deterministic browser used to run the extension on concrete
    inputs: which executables exist, which driver operations are rejected,
    which selectors match an element, the text of the document and the
    scroll offset. *)

Record Sim : Type := mkSim {
  sim_executables : list string;
  sim_launch_fails : bool;
  sim_newPage_fails : bool;
  sim_close_fails : bool;
  sim_selectors : list string;
  sim_text : string;
  sim_scrollY : Z
}.

Definition sim_access (w : Sim) (path : string) : bool :=
  existsb (String.eqb path) (sim_executables w).

Definition sim_scroll_to (w : Sim) (y : Z) : Sim :=
  mkSim (sim_executables w) (sim_launch_fails w) (sim_newPage_fails w)
        (sim_close_fails w) (sim_selectors w) (sim_text w) y.

Definition sim_max_scroll : Z := 5000.

Definition protocol_error (what : string) : err :=
  mkErr "ProtocolError" what.

Definition sim_driver (A : Type) (c : call A) (w : Sim) : outcome A * Sim :=
  match c in call T return outcome T * Sim with
  | Launch _ _ _ =>
      if sim_launch_fails w
      then (Throw (protocol_error "Failed to launch the browser process"), w)
      else (Ok 1%nat, w)
  | NewPage _ =>
      if sim_newPage_fails w
      then (Throw (protocol_error "Target.createTarget failed"), w)
      else (Ok 1%nat, w)
  | SetViewport _ _ _ => (Ok tt, w)
  | SetUserAgent _ _ => (Ok tt, w)
  | Goto _ _ _ => (Ok tt, sim_scroll_to w 0)
  | Title _ => (Ok "Example Domain", w)
  | Url _ => (Ok "https://example.com/", w)
  | Query _ sel =>
      if existsb (String.eqb sel) (sim_selectors w)
      then (Ok (Some 7%nat), w) else (Ok None, w)
  | ElementScreenshot _ => (Ok "iVBORw0KGgo=", w)
  | PageScreenshot _ _ => (Ok "iVBORw0KGgo=", w)
  | Click _ _ => (Ok tt, w)
  | ClickAndWaitForNavigation _ _ _ => (Ok tt, sim_scroll_to w 0)
  | ElementClick _ _ => (Ok tt, w)
  | ElementPress _ _ => (Ok tt, w)
  | ElementType _ _ => (Ok tt, w)
  | ElementTextContent _ => (Ok (sim_text w), w)
  | BodyInnerText _ => (Ok (sim_text w), w)
  | ScrollBy _ dy =>
      (Ok tt, sim_scroll_to w (Z.max 0 (Z.min sim_max_scroll (sim_scrollY w + dy))))
  | ScrollToBottom _ => (Ok tt, sim_scroll_to w sim_max_scroll)
  | ScrollToTop _ => (Ok tt, sim_scroll_to w 0)
  | ScrollY _ => (Ok (sim_scrollY w), w)
  | WaitForSelector _ sel _ =>
      if existsb (String.eqb sel) (sim_selectors w)
      then (Ok tt, w)
      else (Throw (mkErr "TimeoutError"
                     ("Waiting for selector `" ++ sel ++ "` failed")), w)
  | Content _ => (Ok ("<html><body>" ++ sim_text w ++ "</body></html>"), w)
  | BrowserClose _ =>
      if sim_close_fails w
      then (Throw (protocol_error "Connection closed"), w)
      else (Ok tt, w)
  end.

Definition sim_env : Env :=
  {| W := Sim; access_x := sim_access; driver := sim_driver |}.

(** A machine with Chromium installed and a page showing five characters
    of text with one button. *)
Definition sim_world : Sim :=
  mkSim [ "/usr/bin/chromium" ] false false false [ "#submit" ] "hello" 0.

Definition sim_newPage_broken : Sim :=
  mkSim [ "/usr/bin/chromium" ] false true false [ "#submit" ] "hello" 0.

Definition sim_close_broken : Sim :=
  mkSim [ "/usr/bin/chromium" ] false false true [ "#submit" ] "hello" 0.

(** A signal raised while the fifth driver call is in flight. *)
Definition raised_during_fifth_call : AbortSignal :=
  {| aborted_at := fun t => Nat.leb 5 t |}.

Section Extension.

Context {E : Env}.

(** The module state: the two handles, the world, the record of driver
    calls and the progress messages passed to [onUpdate]. *)
Record State : Type := mkState {
  browser : option Browser;
  page : option Page;
  world : W;
  log : list event;
  updates : list string
}.

Definition M (A : Type) : Type := State -> outcome A * State.

Definition ret {A} (a : A) : M A := fun st => (Ok a, st).

Definition throw {A} (e : err) : M A := fun st => (Throw e, st).

Definition bind {A B} (m : M A) (f : A -> M B) : M B :=
  fun st =>
    match m st with
    | (Ok a, st') => f a st'
    | (Throw e, st') => (Throw e, st')
    end.

(** [m.catch(() => {})] *)
Definition swallow (m : M unit) : M unit :=
  fun st =>
    match m st with
    | (Ok _, st') => (Ok tt, st')
    | (Throw _, st') => (Ok tt, st')
    end.

Notation "'let*' x ':=' m 'in' k" := (bind m (fun x => k))
  (at level 10, x name, m at level 100, k at level 200).
Notation "m ';;' k" := (bind m (fun _ => k))
  (at level 100, right associativity).

(** One awaited driver call. *)
Definition perform {A} (c : call A) : M A :=
  fun st =>
    let (r, w') := driver A c (world st) in
    let failure := match r with Ok _ => None | Throw e => Some e end in
    (r, mkState (browser st) (page st) w'
                (log st ++ [Ev (existT _ A c) failure]) (updates st)).

(** A driver method reached through a page value that may be [null]. *)
Definition on_page {A} (p : option Page) (method : string)
    (c : Page -> call A) : M A :=
  match p with
  | Some pg => perform (c pg)
  | None => throw (null_deref method)
  end.

Definition set_browser (b : option Browser) : M unit :=
  fun st => (Ok tt, mkState b (page st) (world st) (log st) (updates st)).

Definition set_page (p : option Page) : M unit :=
  fun st => (Ok tt, mkState (browser st) p (world st) (log st) (updates st)).

Definition get_browser : M (option Browser) :=
  fun st => (Ok (browser st), st).

Definition get_page : M (option Page) := fun st => (Ok (page st), st).

(** [onUpdate?.({ content: [{ type: "text", text }] })] *)
Definition notify (onUpdate : bool) (text : string) : M unit :=
  fun st =>
    if onUpdate
    then (Ok tt, mkState (browser st) (page st) (world st) (log st)
                         (updates st ++ [text]))
    else (Ok tt, st).

(** A synchronous function that only reads the world. *)
Definition in_world {A} (f : W -> outcome A) : M A :=
  fun st => (f (world st), st).

(** *** findChrome *)

Fixpoint probe (w : W) (paths : list string) : outcome string :=
  match paths with
  | [] => Throw chrome_not_found
  | p :: rest => if access_x w p then Ok p else probe w rest
  end.

Definition findChrome (w : W) : outcome string := probe w chrome_paths.

(** *** getPage *)

Definition getPage : M (option Page) :=
  let* b := get_browser in
  match b with
  | None =>
      let* chromePath := in_world findChrome in
      let* b := perform (Launch true chromePath launch_args) in
      set_browser (Some b) ;;
      let* pg := perform (NewPage b) in
      set_page (Some pg) ;;
      perform (SetViewport pg 1920 1080) ;;
      (* Set a realistic user agent *)
      perform (SetUserAgent pg user_agent)
  | Some _ => ret tt
  end ;;
  get_page.

(** *** browser_navigate *)

Definition browser_navigate (params : NavigateParams.t)
    (_signal : option AbortSignal) (onUpdate : bool) : M Envelope :=
  let url := NavigateParams.url params in
  let* p := getPage in
  notify onUpdate ("Navigating to " ++ url ++ "...") ;;
  on_page p "goto" (fun pg =>
    Goto pg url
         (if truthy_bool (NavigateParams.waitForLoad params)
          then "networkidle0" else "domcontentloaded")) ;;
  let* title := on_page p "title" Title in
  let* url' := on_page p "url" Url in
  ret (mkEnvelope
         [ Text (check_mark ++ " Loaded: " ++ title);
           Text ("URL: " ++ url') ]
         [ ("title", JStr title); ("url", JStr url') ]
         None).

(** *** browser_screenshot *)

Definition screenshot_caption (params : ScreenshotParams.t) : string :=
  match ScreenshotParams.selector params with
  | Some sel =>
      if truthy_str (Some sel)
      then "Screenshot of element: " ++ sel
      else if truthy_bool (ScreenshotParams.fullPage params)
           then "Full page screenshot" else "Viewport screenshot"
  | None =>
      if truthy_bool (ScreenshotParams.fullPage params)
      then "Full page screenshot" else "Viewport screenshot"
  end.

Definition browser_screenshot (params : ScreenshotParams.t)
    (_signal : option AbortSignal) (onUpdate : bool) : M Envelope :=
  let* p := getPage in
  notify onUpdate "Taking screenshot..." ;;
  let* screenshot :=
    match ScreenshotParams.selector params with
    | Some sel =>
        if truthy_str (Some sel) then
          let* element := on_page p "$" (fun pg => Query pg sel) in
          match element with
          | None => throw (element_not_found sel)
          | Some el => perform (ElementScreenshot el)
          end
        else
          on_page p "screenshot" (fun pg =>
            PageScreenshot pg (ScreenshotParams.fullPage params))
    | None =>
        on_page p "screenshot" (fun pg =>
          PageScreenshot pg (ScreenshotParams.fullPage params))
    end in
  ret (mkEnvelope
         [ Text (check_mark ++ " " ++ screenshot_caption params);
           Image screenshot "image/png" ]
         [ ("fullPage", js_opt_bool (ScreenshotParams.fullPage params));
           ("selector", js_opt_str (ScreenshotParams.selector params)) ]
         None).

(** *** browser_click *)

Definition browser_click (params : ClickParams.t)
    (_signal : option AbortSignal) (onUpdate : bool) : M Envelope :=
  let sel := ClickParams.selector params in
  let* p := getPage in
  notify onUpdate ("Clicking: " ++ sel ++ "...") ;;
  (* Check element exists first *)
  let* element := on_page p "$" (fun pg => Query pg sel) in
  match element with
  | None => throw (element_not_found sel)
  | Some _ =>
      (if truthy_bool (ClickParams.waitForNavigation params)
       then on_page p "waitForNavigation" (fun pg =>
              ClickAndWaitForNavigation pg sel "networkidle0")
       else on_page p "click" (fun pg => Click pg sel)) ;;
      let* url1 := on_page p "url" Url in
      let* url2 := on_page p "url" Url in
      ret (mkEnvelope
             [ Text (check_mark ++ " Clicked: " ++ sel);
               Text ("Current URL: " ++ url1) ]
             [ ("selector", JStr sel); ("url", JStr url2) ]
             None)
  end.

(** *** browser_type *)

Definition when (b : bool) (m : M unit) : M unit :=
  if b then m else ret tt.

Definition browser_type (params : TypeParams.t)
    (_signal : option AbortSignal) (onUpdate : bool) : M Envelope :=
  let sel := TypeParams.selector params in
  let text := TypeParams.text params in
  let* p := getPage in
  notify onUpdate ("Typing into: " ++ sel ++ "...") ;;
  let* element := on_page p "$" (fun pg => Query pg sel) in
  match element with
  | None => throw (element_not_found sel)
  | Some el =>
      when (truthy_bool (TypeParams.clearFirst params))
           (perform (ElementClick el 3) ;;
            perform (ElementPress el "Backspace")) ;;
      perform (ElementType el text) ;;
      when (truthy_bool (TypeParams.pressEnter params))
           (perform (ElementPress el "Enter")) ;;
      ret (mkEnvelope
             [ Text (check_mark ++ " Typed into: " ++ sel);
               Text ("Text: " ++ slice0 text 50
                       ++ (if str_length text >? 50 then "..." else "")) ]
             [ ("selector", JStr sel);
               ("textLength", JNum (str_length text)) ]
             None)
  end.

(** *** browser_get_text *)

Definition default_max_length : Z := 10000.

Definition truncate_text (text : string) (maxLen : Z) : string :=
  if str_length text >? maxLen
  then slice0 text maxLen ++ truncation_marker
  else text.

Definition extract_text (p : option Page) (selector : option string)
    : M string :=
  match selector with
  | Some sel =>
      if truthy_str (Some sel) then
        let* element := on_page p "$" (fun pg => Query pg sel) in
        match element with
        | None => throw (element_not_found sel)
        | Some el => perform (ElementTextContent el)
        end
      else on_page p "evaluate" BodyInnerText
  | None => on_page p "evaluate" BodyInnerText
  end.

Definition browser_get_text (params : GetTextParams.t) : M Envelope :=
  let* p := getPage in
  let* text := extract_text p (GetTextParams.selector params) in
  let maxLen := num_or (GetTextParams.maxLength params) default_max_length in
  let truncated := truncate_text text maxLen in
  let* url := on_page p "url" Url in
  ret (mkEnvelope
         [ Text truncated ]
         [ ("length", JNum (str_length text));
           ("truncated", JBool (str_length text >? maxLen));
           ("url", JStr url) ]
         None).

(** *** browser_scroll *)

Definition default_scroll_amount : Z := 800.

Definition scroll_step (p : option Page) (direction : string) (amount : Z)
    : M unit :=
  if String.eqb direction "down" then
    on_page p "evaluate" (fun pg => ScrollBy pg amount)
  else if String.eqb direction "up" then
    on_page p "evaluate" (fun pg => ScrollBy pg (- amount))
  else if String.eqb direction "bottom" then
    on_page p "evaluate" ScrollToBottom
  else if String.eqb direction "top" then
    on_page p "evaluate" ScrollToTop
  else ret tt.

Definition browser_scroll (params : ScrollParams.t) : M Envelope :=
  let direction := ScrollParams.direction params in
  let* p := getPage in
  let amount := num_or (ScrollParams.amount params) default_scroll_amount in
  scroll_step p direction amount ;;
  let* scrollPos := on_page p "evaluate" ScrollY in
  ret (mkEnvelope
         [ Text (check_mark ++ " Scrolled " ++ direction ++ " (position: "
                   ++ string_of_Z scrollPos ++ "px)") ]
         [ ("direction", JStr direction);
           ("scrollPosition", JNum scrollPos) ]
         None).

(** *** browser_wait_for *)

Definition browser_wait_for (params : WaitForParams.t)
    (_signal : option AbortSignal) (onUpdate : bool) : M Envelope :=
  let sel := WaitForParams.selector params in
  let* p := getPage in
  notify onUpdate ("Waiting for: " ++ sel ++ "...") ;;
  on_page p "waitForSelector" (fun pg =>
    WaitForSelector pg sel (WaitForParams.timeout params)) ;;
  ret (mkEnvelope
         [ Text (check_mark ++ " Element appeared: " ++ sel) ]
         [ ("selector", JStr sel) ]
         None).

(** *** browser_debug *)

Definition html_preview (html : string) : string :=
  "HTML preview:" ++ String (ascii_of_nat 10) (slice0 html 3000)
    ++ (if str_length html >? 3000 then truncation_marker else "").

Definition browser_debug (params : DebugParams.t)
    (_signal : option AbortSignal) (onUpdate : bool) : M Envelope :=
  let* p := getPage in
  notify onUpdate "Capturing debug info..." ;;
  let* screenshot :=
    on_page p "screenshot" (fun pg => PageScreenshot pg (Some true)) in
  let* title := on_page p "title" Title in
  let* url := on_page p "url" Url in
  let content0 :=
    [ Text "Debug Info:";
      Text ("Title: " ++ title);
      Text ("URL: " ++ url);
      Image screenshot "image/png" ] in
  let* content1 :=
    if truthy_bool (DebugParams.includeHtml params) then
      let* html := on_page p "content" Content in
      ret (content0 ++ [ Text (html_preview html) ])%list
    else ret content0 in
  ret (mkEnvelope content1
         [ ("title", JStr title); ("url", JStr url) ]
         None).

(** *** browser_close and the shutdown handler *)

Definition browser_closed : Envelope :=
  mkEnvelope [ Text (check_mark ++ " Browser closed") ] [] None.

Definition browser_close : M Envelope :=
  let* b := get_browser in
  match b with
  | Some bh =>
      perform (BrowserClose bh) ;;
      set_browser None ;;
      set_page None
  | None => ret tt
  end ;;
  ret browser_closed.

Definition session_shutdown : M unit :=
  let* b := get_browser in
  match b with
  | Some bh =>
      swallow (perform (BrowserClose bh)) ;;
      set_browser None ;;
      set_page None
  | None => ret tt
  end.

(** The tool table: [execute] of the tool an action names. *)
Definition execute (a : action) (signal : option AbortSignal)
    (onUpdate : bool) : M Envelope :=
  match a with
  | Navigate params => browser_navigate params signal onUpdate
  | Screenshot params => browser_screenshot params signal onUpdate
  | ClickElement params => browser_click params signal onUpdate
  | TypeText params => browser_type params signal onUpdate
  | GetText params => browser_get_text params
  | Scroll params => browser_scroll params
  | WaitFor params => browser_wait_for params signal onUpdate
  | Debug params => browser_debug params signal onUpdate
  | Close => browser_close
  end.

(** Actions issued one after the other; the run stops at nothing: every
    action is executed whatever the earlier ones returned. *)
Fixpoint run_all (actions : list action) (signal : option AbortSignal)
    (onUpdate : bool) (st : State) : State :=
  match actions with
  | [] => st
  | a :: rest => run_all rest signal onUpdate
                         (snd (execute a signal onUpdate st))
  end.

(** *** Runs and their observations *)

Local Open Scope list_scope.

(** The module state when the extension is loaded: no handle held. *)
Definition initial (w : W) : State := mkState None None w [] [].

(** A session that holds a browser and a page. *)
Definition ready (b : Browser) (p : Page) (w : W) : State :=
  mkState (Some b) (Some p) w [] [].

(** The driver calls performed between two states of one run. *)
Definition new_events (st st' : State) : list event :=
  skipn (List.length (log st)) (log st').

(** How an outcome relates to the driver calls of its run when nothing is
    caught on the way: every call succeeded, except that the last one may
    have been rejected, and then the run throws that very rejection. *)
Definition propagates {A} (r : outcome A) (l : list event) : Prop :=
  match r with
  | Ok _ => forallb ev_ok l = true
  | Throw e =>
      forallb ev_ok l = true \/
      exists l0 c, l = l0 ++ [Ev c (Some e)] /\ forallb ev_ok l0 = true
  end.

(** [traced P m]: a run of [m] only adds driver calls to the record, all of
    them satisfy [P], and its outcome propagates their rejections. *)
Definition traced (P : event -> bool) {A} (m : M A) : Prop :=
  forall st, exists l,
    log (snd (m st)) = log st ++ l /\
    forallb P l = true /\
    propagates (fst (m st)) l.

(** [preserves m]: a run of [m] leaves both handles as they were. *)
Definition preserves {A} (m : M A) : Prop :=
  forall st,
    browser (snd (m st)) = browser st /\ page (snd (m st)) = page st.

(** [returns Q m]: whatever [m] returns satisfies [Q]. *)
Definition returns {A} (Q : A -> Prop) (m : M A) : Prop :=
  forall st a, fst (m st) = Ok a -> Q a.

(** The session invariant: a page is held only inside a browser. *)
Definition well_formed (st : State) : Prop :=
  browser st = None -> page st = None.

(** Event classes used in the statements. *)
Definition no_launch (e : event) : bool := negb (is_launch e).
Definition no_click (e : event) : bool := negb (is_click e).
Definition any_event (e : event) : bool := true.

End Extension.

(** ** Concrete runs on the simulated environment *)

(** The extension just loaded on the simulated machine, and a session
    already holding browser 1 and page 1 there. *)
Definition sim_initial (w : Sim) : @State sim_env := @initial sim_env w.

Definition sim_ready (w : Sim) : @State sim_env := @ready sim_env 1%nat 1%nat w.

Definition run (a : action) (signal : option AbortSignal) (st : @State sim_env)
    : outcome Envelope * @State sim_env :=
  @execute sim_env a signal true st.

Definition click_missing : action :=
  ClickElement (ClickParams.mk "#missing" None).

Definition navigate_example : action :=
  Navigate (NavigateParams.mk "https://example.com/" (Some true)).

Definition get_text_uncapped : action :=
  GetText (GetTextParams.mk None (Some 0)).

Definition get_text_three : action :=
  GetText (GetTextParams.mk None (Some 3)).

(** The session after a first successful [getPage]. *)
Definition sim_acquired : @State sim_env :=
  snd (@getPage sim_env (sim_initial sim_world)).

(** The same session once the text of the document has been read, and
    once the URL has been read after it. *)
Definition sim_text_read : @State sim_env :=
  snd (@extract_text sim_env (Some 1%nat) None sim_acquired).

Definition sim_url_read : @State sim_env :=
  snd (@on_page sim_env _ (Some 1%nat) "url" Url sim_text_read).

(** The session after a [getPage] during which opening the page fails. *)
Definition sim_stuck : @State sim_env :=
  snd (@getPage sim_env (sim_initial sim_newPage_broken)).

(** ** More event classes and simulated environments *)

Definition no_close (e : event) : bool := negb (is_close e).

(** An environment like [sim_env] whose [setViewport] is rejected. *)
Definition sim_driver_no_viewport (A : Type) (c : call A) (w : Sim)
    : outcome A * Sim :=
  match c in call T return outcome T * Sim with
  | SetViewport _ _ _ =>
      (Throw (protocol_error "Emulation.setDeviceMetricsOverride failed"), w)
  | c' => sim_driver _ c' w
  end.

Definition sim_env_no_viewport : Env :=
  {| W := Sim; access_x := sim_access; driver := sim_driver_no_viewport |}.

Definition wait_for_missing : action :=
  WaitFor (WaitForParams.mk "#missing" (Some 10)).

(** The fresh session on the machine whose [setViewport] is rejected. *)
Definition sim_initial_no_viewport : @State sim_env_no_viewport :=
  @initial sim_env_no_viewport sim_world.

(** The driver calls [browser_type] makes on the element it found, in
    source order: the triple click and Backspace that clear the field when
    [clearFirst] is set, the typing, and Enter when [pressEnter] is set. *)
Definition type_script (params : TypeParams.t) (el : Element)
    : list {A : Type & call A} :=
  ((if truthy_bool (TypeParams.clearFirst params)
    then [ existT _ _ (ElementClick el 3);
           existT _ _ (ElementPress el "Backspace") ]
    else [])
   ++ [ existT _ _ (ElementType el (TypeParams.text params)) ]
   ++ (if truthy_bool (TypeParams.pressEnter params)
       then [ existT _ _ (ElementPress el "Enter") ]
       else []))%list.

Definition type_into_missing : action :=
  TypeText (TypeParams.mk "#missing" "secret" (Some true) (Some true)).

Definition type_into_submit : action :=
  TypeText (TypeParams.mk "#submit" "secret" (Some true) (Some true)).

Definition is_html_read (e : event) : bool :=
  match projT2 (ev_call e) with
  | Content _ => true
  | _ => false
  end.

Definition no_html_read (e : event) : bool := negb (is_html_read e).

(** The first four items of what [browser_debug] returns. *)
Definition debug_items (title url screenshot : string) : list content_item :=
  [ Text "Debug Info:";
    Text ("Title: " ++ title);
    Text ("URL: " ++ url);
    Image screenshot "image/png" ].

(** The progress message a tool hands to [onUpdate], for the tools that
    take the callback. *)
Definition progress_message (a : action) : option string :=
  match a with
  | Navigate params =>
      Some ("Navigating to " ++ NavigateParams.url params ++ "...")
  | Screenshot _ => Some "Taking screenshot..."
  | ClickElement params =>
      Some ("Clicking: " ++ ClickParams.selector params ++ "...")
  | TypeText params =>
      Some ("Typing into: " ++ TypeParams.selector params ++ "...")
  | WaitFor params =>
      Some ("Waiting for: " ++ WaitForParams.selector params ++ "...")
  | Debug _ => Some "Capturing debug info..."
  | GetText _ | Scroll _ | Close => None
  end.

Definition scroll_left : action :=
  Scroll (ScrollParams.mk "left" (Some 300)).

Definition debug_plain : action := Debug (DebugParams.mk None).

Definition screenshot_submit : action :=
  Screenshot (ScreenshotParams.mk (Some true) (Some "#submit")).

(** [quiet m]: a run of [m] sends nothing to [onUpdate]. *)
Definition quiet {E : Env} {A} (m : M A) : Prop :=
  forall st, updates (snd (m st)) = updates st.

(** Two outcomes that agree up to the details of a returned envelope. *)
Definition same_content (r1 r2 : outcome Envelope) : Prop :=
  match r1, r2 with
  | Ok e1, Ok e2 => content e1 = content e2 /\ isError e1 = isError e2
  | Throw x1, Throw x2 => x1 = x2
  | _, _ => False
  end.

(** The wait condition [browser_navigate] passes to [goto]. *)
Definition wait_until (waitForLoad : option bool) : string :=
  if truthy_bool waitForLoad then "networkidle0" else "domcontentloaded".

Definition wait_for_submit : action :=
  WaitFor (WaitForParams.mk "#submit" None).

(** ** Selectors a tool probes, and more requests *)

(** The selector a tool looks up with [p.$] before it acts: the selector
    of click and of type, and the selector of get_text and of screenshot
    when one is given and is not the empty string. *)
Definition probed_selector (a : action) : option string :=
  match a with
  | ClickElement params => Some (ClickParams.selector params)
  | TypeText params => Some (TypeParams.selector params)
  | GetText params =>
      if truthy_str (GetTextParams.selector params)
      then GetTextParams.selector params else None
  | Screenshot params =>
      if truthy_str (ScreenshotParams.selector params)
      then ScreenshotParams.selector params else None
  | _ => None
  end.

(** The largest integer below which every integer is a JavaScript number
    and prints as its decimal digits. *)
Definition max_safe_integer : Z := 2 ^ 53 - 1.


Definition debug_with_html : action := Debug (DebugParams.mk (Some true)).

Definition screenshot_empty_selector : action :=
  Screenshot (ScreenshotParams.mk None (Some "")).

Definition get_text_empty_selector : action :=
  GetText (GetTextParams.mk (Some "") None).

(** ** Properties *)

Section Properties.

Context {E : Env}.

Local Open Scope list_scope.

Notation "'let*' x ':=' m 'in' k" := (bind m (fun x => k))
  (at level 10, x name, m at level 100, k at level 200).
Notation "m ';;' k" := (bind m (fun _ => k))
  (at level 100, right associativity).

(** *** The calculus of [traced], [preserves] and [returns] *)

Lemma new_events_app : forall st st' l,
  log st' = log st ++ l -> new_events st st' = l.
Proof.
  intros st st' l H. unfold new_events. rewrite H.
  rewrite skipn_app, skipn_all, Nat.sub_diag. reflexivity.
Qed.

Lemma propagates_nil : forall A (r : outcome A), propagates r [].
Proof. intros A [a | e]; simpl; auto. Qed.

Lemma traced_ret : forall P A (a : A), traced P (ret a).
Proof.
  intros P A a st. exists []. simpl. rewrite app_nil_r. auto.
Qed.

Lemma traced_throw : forall P A (e : err), traced P (throw (A:=A) e).
Proof.
  intros P A e st. exists []. simpl. rewrite app_nil_r. auto.
Qed.

Lemma traced_bind : forall P A B (m : M A) (f : A -> M B),
  traced P m -> (forall a, traced P (f a)) -> traced P (bind m f).
Proof.
  intros P A B m f Hm Hf st. unfold bind.
  destruct (Hm st) as (l1 & Hlog1 & HP1 & Hr1).
  destruct (m st) as [[a | e] st1]; simpl in *.
  - destruct (Hf a st1) as (l2 & Hlog2 & HP2 & Hr2).
    exists (l1 ++ l2). rewrite Hlog2, Hlog1, app_assoc.
    split; [reflexivity |]. rewrite forallb_app, HP1, HP2.
    split; [reflexivity |].
    destruct (fst (f a st1)) as [b | e]; simpl in *.
    + rewrite forallb_app, Hr1, Hr2. reflexivity.
    + destruct Hr2 as [Hok | (l0 & c & -> & Hok)].
      * left. rewrite forallb_app, Hr1, Hok. reflexivity.
      * right. exists (l1 ++ l0), c. rewrite app_assoc.
        split; [reflexivity |]. rewrite forallb_app, Hr1, Hok. reflexivity.
  - exists l1. auto.
Qed.

Lemma traced_perform : forall (P : event -> bool) A (c : call A),
  (forall o, P (Ev (existT _ A c) o) = true) -> traced P (perform c).
Proof.
  intros P A c HP st. unfold perform.
  destruct (driver A c (world st)) as [[a | e] w']; simpl.
  - eexists. split; [reflexivity |]. simpl. rewrite HP. auto.
  - eexists. split; [reflexivity |]. simpl. rewrite HP.
    split; [reflexivity |]. right. exists [], (existT _ A c). auto.
Qed.

Lemma traced_on_page : forall (P : event -> bool) A p method
    (c : Page -> call A),
  (forall pg o, P (Ev (existT _ A (c pg)) o) = true) ->
  traced P (on_page p method c).
Proof.
  intros P A [pg |] method c HP; simpl.
  - apply traced_perform. intro o. apply HP.
  - apply traced_throw.
Qed.

Lemma traced_notify : forall P onUpdate text, traced P (notify onUpdate text).
Proof.
  intros P [|] text st; exists []; simpl; rewrite app_nil_r; auto.
Qed.

Lemma traced_set_browser : forall P b, traced P (set_browser b).
Proof. intros P b st. exists []. simpl. rewrite app_nil_r. auto. Qed.

Lemma traced_set_page : forall P p, traced P (set_page p).
Proof. intros P p st. exists []. simpl. rewrite app_nil_r. auto. Qed.

Lemma traced_get_browser : forall P, traced P get_browser.
Proof. intros P st. exists []. simpl. rewrite app_nil_r. auto. Qed.

Lemma traced_get_page : forall P, traced P get_page.
Proof. intros P st. exists []. simpl. rewrite app_nil_r. auto. Qed.

Lemma traced_in_world : forall P A (f : W -> outcome A),
  traced P (in_world f).
Proof.
  intros P A f st. exists []. simpl. rewrite app_nil_r.
  split; [reflexivity |]. split; [reflexivity |]. apply propagates_nil.
Qed.

Lemma preserves_ret : forall A (a : A), preserves (ret a).
Proof. intros A a st. simpl. auto. Qed.

Lemma preserves_throw : forall A (e : err), preserves (throw (A:=A) e).
Proof. intros A e st. simpl. auto. Qed.

Lemma preserves_bind : forall A B (m : M A) (f : A -> M B),
  preserves m -> (forall a, preserves (f a)) -> preserves (bind m f).
Proof.
  intros A B m f Hm Hf st. unfold bind.
  destruct (Hm st) as [Hb Hp].
  destruct (m st) as [[a | e] st1]; simpl in *.
  - destruct (Hf a st1) as [Hb' Hp']. split; congruence.
  - auto.
Qed.

Lemma preserves_perform : forall A (c : call A), preserves (perform c).
Proof.
  intros A c st. unfold perform.
  destruct (driver A c (world st)) as [r w']. simpl. auto.
Qed.

Lemma preserves_on_page : forall A p method (c : Page -> call A),
  preserves (on_page p method c).
Proof.
  intros A [pg |] method c; simpl.
  - apply preserves_perform.
  - apply preserves_throw.
Qed.

Lemma preserves_notify : forall onUpdate text, preserves (notify onUpdate text).
Proof. intros [|] text st; simpl; auto. Qed.

Lemma returns_ret : forall A (Q : A -> Prop) (a : A), Q a -> returns Q (ret a).
Proof. intros A Q a H st a' Heq. simpl in Heq. congruence. Qed.

Lemma returns_throw : forall A (Q : A -> Prop) e, returns Q (throw (A:=A) e).
Proof. intros A Q e st a Heq. simpl in Heq. discriminate. Qed.

Lemma returns_bind : forall A B (Q : B -> Prop) (m : M A) (f : A -> M B),
  (forall a, returns Q (f a)) -> returns Q (bind m f).
Proof.
  intros A B Q m f Hf st b. unfold bind.
  destruct (m st) as [[a | e] st1]; simpl.
  - apply Hf.
  - discriminate.
Qed.

Create HintDb session discriminated.

#[local] Hint Resolve traced_ret traced_throw traced_notify traced_set_browser
  traced_set_page traced_get_browser traced_get_page traced_in_world
  preserves_ret preserves_throw preserves_perform preserves_on_page
  preserves_notify returns_throw : session.

(** Walks through a program of the extension: binds, branches, leaves. *)
Ltac walk :=
  repeat first
    [ progress auto with session
    | apply traced_bind; [| intro]
    | apply preserves_bind; [| intro]
    | apply returns_bind; intro
    | apply returns_ret
    | apply traced_perform; intro; reflexivity
    | apply traced_on_page; intros; reflexivity
    | match goal with
      | |- traced _ (match ?x with _ => _ end) => destruct x
      | |- preserves (match ?x with _ => _ end) => destruct x
      | |- returns _ (match ?x with _ => _ end) => destruct x
      end ].


Lemma filter_none : forall (f : event -> bool) l,
  forallb (fun e => negb (f e)) l = true -> filter f l = [].
Proof.
  intros f l. induction l as [| e l IH]; simpl; [reflexivity |].
  destruct (f e); simpl; [discriminate | exact IH].
Qed.

(** *** findChrome *)

Lemma probe_first : forall w paths,
  match probe w paths with
  | Ok p =>
      exists pre post,
        paths = pre ++ p :: post /\
        (forall q, In q pre -> access_x w q = false) /\
        access_x w p = true
  | Throw e =>
      (forall q, In q paths -> access_x w q = false) /\ e = chrome_not_found
  end.
Proof.
  intros w paths. induction paths as [| p rest IH]; simpl.
  - split; [intros q [] | reflexivity].
  - destruct (access_x w p) eqn:Hp.
    + exists [], rest. simpl. split; [reflexivity |]. split; [intros q [] | exact Hp].
    + destruct (probe w rest) as [p' | e].
      * destruct IH as (pre & post & -> & Hpre & Hp').
        exists (p :: pre), post. simpl. split; [reflexivity |].
        split; [| exact Hp']. intros q [<- | Hq]; auto.
      * destruct IH as [Hall ->]. split; [| reflexivity].
        intros q [<- | Hq]; auto.
Qed.

(** C7: [findChrome] probes the fixed list [chrome_paths] in order and
    returns the first path that passes the executable-access test; when no
    path passes it throws the error whose message names the install
    command [sudo dnf install chromium]. *)
Theorem findChrome_first_executable : forall w,
  match findChrome w with
  | Ok p =>
      exists pre post,
        chrome_paths = pre ++ p :: post /\
        (forall q, In q pre -> access_x w q = false) /\
        access_x w p = true
  | Throw e =>
      (forall q, In q chrome_paths -> access_x w q = false) /\
      e = chrome_not_found /\
      err_message e =
        ("Chrome/Chromium not found. "
           ++ "Install with: sudo dnf install chromium")%string
  end.
Proof.
  intro w. unfold findChrome.
  pose proof (probe_first w chrome_paths) as H.
  destruct (probe w chrome_paths) as [p | e]; [exact H |].
  destruct H as [Hall ->]. auto.
Qed.

(** *** getPage *)

Lemma getPage_ready : forall st b,
  browser st = Some b -> getPage st = (Ok (page st), st).
Proof.
  intros st b H. unfold getPage, bind, get_browser, get_page.
  rewrite H. reflexivity.
Qed.

Lemma bind_getPage_ready : forall A (f : option Page -> M A) st b,
  browser st = Some b -> bind getPage f st = f (page st) st.
Proof.
  intros A f st b H. unfold bind at 1. rewrite (getPage_ready st b H).
  reflexivity.
Qed.

Lemma getPage_traced : traced any_event getPage.
Proof. unfold getPage. walk. Qed.

Lemma getPage_no_click : traced no_click getPage.
Proof. unfold getPage. walk. Qed.

(** A successful [getPage] leaves a browser held, so the next one is the
    cached answer. *)
Lemma getPage_twice : forall st p st1,
  getPage st = (Ok p, st1) -> getPage st1 = (Ok p, st1).
Proof.
  intros st p st1 H.
  destruct (browser st) as [b |] eqn:Hb.
  - rewrite (getPage_ready st b Hb) in H. inversion H; subst.
    apply (getPage_ready st1 b Hb).
  - revert H. unfold getPage, in_world, bind, get_browser, get_page,
      set_browser, set_page, perform. rewrite Hb.
    destruct (findChrome (world st)) as [path | e]; [| discriminate].
    simpl.
    destruct (driver Browser _ (world st)) as [[b | e] w1]; [| discriminate].
    simpl.
    destruct (driver Page _ w1) as [[pg | e] w2]; [| discriminate].
    simpl.
    destruct (driver unit (SetViewport _ _ _) w2) as [[[] | e] w3];
      [| discriminate].
    simpl.
    destruct (driver unit (SetUserAgent _ _) w3) as [[[] | e] w4];
      [| discriminate].
    simpl. intro H. inversion H; subst. reflexivity.
Qed.

(** With a browser held, a page action keeps both handles and neither
    launches a browser nor opens a page. *)
Lemma page_action_when_ready : forall a signal onUpdate st b,
  is_page_action a = true ->
  browser st = Some b ->
  let st' := snd (execute a signal onUpdate st) in
  browser st' = Some b /\ page st' = page st /\
  exists l, log st' = log st ++ l /\ forallb no_launch l = true.
Proof.
  intros a signal onUpdate st b Ha Hb.
  assert (Hgen : forall f : option Page -> M Envelope,
            (forall p, preserves (f p)) ->
            (forall p, traced no_launch (f p)) ->
            let st' := snd (bind getPage f st) in
            browser st' = Some b /\ page st' = page st /\
            exists l, log st' = log st ++ l /\ forallb no_launch l = true).
  { intros f Hp Ht. cbv zeta. rewrite (bind_getPage_ready _ f st b Hb).
    destruct (Hp (page st) st) as [H1 H2].
    destruct (Ht (page st) st) as (l & Hl & HP & _).
    rewrite H1, H2. split; [exact Hb |]. split; [reflexivity |].
    exists l. auto. }
  destruct a; try discriminate Ha; cbn [execute];
    [ unfold browser_navigate | unfold browser_screenshot
    | unfold browser_click | unfold browser_type
    | unfold browser_get_text, extract_text
    | unfold browser_scroll, scroll_step
    | unfold browser_wait_for | unfold browser_debug ];
    apply Hgen; intro p; unfold when; walk.
Qed.

Lemma run_all_when_ready : forall actions signal onUpdate st b,
  forallb is_page_action actions = true ->
  browser st = Some b ->
  let st' := run_all actions signal onUpdate st in
  browser st' = Some b /\ page st' = page st /\
  exists l, log st' = log st ++ l /\ forallb no_launch l = true.
Proof.
  induction actions as [| a rest IH]; intros signal onUpdate st b Hall Hb.
  - simpl. split; [exact Hb |]. split; [reflexivity |].
    exists []. rewrite app_nil_r. auto.
  - simpl in Hall. apply andb_true_iff in Hall as [Ha Hrest].
    destruct (page_action_when_ready a signal onUpdate st b Ha Hb)
      as (Hb1 & Hp1 & l1 & Hl1 & Hn1).
    destruct (IH signal onUpdate _ b Hrest Hb1) as (Hb2 & Hp2 & l2 & Hl2 & Hn2).
    cbn [run_all]. cbv zeta in *.
    split; [exact Hb2 |]. split; [congruence |].
    exists (l1 ++ l2). rewrite Hl2, Hl1, app_assoc.
    split; [reflexivity |]. rewrite forallb_app, Hn1, Hn2. reflexivity.
Qed.

Lemma no_launch_not_launched : forall l,
  forallb no_launch l = true -> filter launched l = [].
Proof.
  intros l H. apply filter_none. rewrite forallb_forall in *.
  intros [[A c] o] Hin. specialize (H _ Hin). revert H.
  unfold no_launch, is_launch, launched. simpl. destruct c; simpl; auto.
  discriminate.
Qed.

(** What [getPage] does to the browser handle: it keeps it and acquires no
    browser, throwing if there was none; or there was none and it acquires
    exactly one. *)
Lemma getPage_launches : forall st,
  exists l,
    log (snd (getPage st)) = log st ++ l /\
    ((browser (snd (getPage st)) = browser st /\
      filter launched l = [] /\
      (browser st = None -> exists e, fst (getPage st) = Throw e)) \/
     (browser st = None /\
      browser (snd (getPage st)) <> None /\
      List.length (filter launched l) = 1%nat)).
Proof.
  intro st. destruct (browser st) as [b |] eqn:Hb.
  - rewrite (getPage_ready st b Hb). exists []. simpl. rewrite app_nil_r.
    split; [reflexivity |]. left. repeat split; auto. discriminate.
  - unfold getPage, in_world, bind, get_browser, get_page, set_browser,
      set_page, perform. rewrite Hb.
    destruct (findChrome (world st)) as [path | e]; simpl.
    2:{ exists []. rewrite app_nil_r. split; [reflexivity |]. left.
        repeat split; eauto. }
    destruct (driver Browser _ (world st)) as [[b | e] w1]; simpl.
    2:{ eexists. split; [reflexivity |]. left. repeat split; eauto. }
    destruct (driver Page _ w1) as [[pg | e] w2]; simpl.
    2:{ eexists. split; [rewrite <- app_assoc; reflexivity |]. right.
        repeat split; auto; discriminate. }
    destruct (driver unit (SetViewport _ _ _) w2) as [[[] | e] w3]; simpl.
    2:{ eexists. split; [rewrite <- !app_assoc; reflexivity |]. right.
        repeat split; auto; discriminate. }
    destruct (driver unit (SetUserAgent _ _) w3) as [[[] | e] w4]; simpl.
    all: eexists; (split; [rewrite <- !app_assoc; reflexivity |]); right;
      repeat split; auto; discriminate.
Qed.

Lemma page_action_launches : forall a signal onUpdate st,
  is_page_action a = true ->
  let st' := snd (execute a signal onUpdate st) in
  exists l,
    log st' = log st ++ l /\
    ((browser st' = browser st /\ filter launched l = []) \/
     (browser st = None /\ browser st' <> None /\
      List.length (filter launched l) = 1%nat)).
Proof.
  intros a signal onUpdate st Ha.
  assert (Hgen : forall f : option Page -> M Envelope,
            (forall p, preserves (f p)) ->
            (forall p, traced no_launch (f p)) ->
            let st' := snd (bind getPage f st) in
            exists l,
              log st' = log st ++ l /\
              ((browser st' = browser st /\ filter launched l = []) \/
               (browser st = None /\ browser st' <> None /\
                List.length (filter launched l) = 1%nat))).
  { intros f Hp Ht. cbv zeta. unfold bind.
    destruct (getPage_launches st) as (l0 & Hl0 & Hcase).
    destruct (getPage st) as [[p | e] st1]; simpl in *.
    - destruct (Hp p st1) as [Hb1 _].
      destruct (Ht p st1) as (l2 & Hl2 & Hn2 & _).
      apply no_launch_not_launched in Hn2.
      exists (l0 ++ l2). rewrite Hl2, Hl0, app_assoc.
      split; [reflexivity |]. rewrite filter_app, Hn2, app_nil_r, Hb1.
      destruct Hcase as [(H1 & H2 & _) | H]; [left | right]; auto.
    - exists l0. split; [exact Hl0 |].
      destruct Hcase as [(H1 & H2 & _) | H]; [left | right]; auto. }
  destruct a; try discriminate Ha; cbn [execute];
    [ unfold browser_navigate | unfold browser_screenshot
    | unfold browser_click | unfold browser_type
    | unfold browser_get_text, extract_text
    | unfold browser_scroll, scroll_step
    | unfold browser_wait_for | unfold browser_debug ];
    apply Hgen; intro p; unfold when; walk.
Qed.

Lemma run_all_launches : forall actions signal onUpdate st,
  forallb is_page_action actions = true ->
  exists l,
    log (run_all actions signal onUpdate st) = log st ++ l /\
    (browser st <> None -> filter launched l = []) /\
    (List.length (filter launched l) <= 1)%nat.
Proof.
  induction actions as [| a rest IH]; intros signal onUpdate st Hall.
  - exists []. simpl. rewrite app_nil_r. auto.
  - simpl in Hall. apply andb_true_iff in Hall as [Ha Hrest].
    destruct (page_action_launches a signal onUpdate st Ha)
      as (l1 & Hl1 & Hcase).
    destruct (IH signal onUpdate (snd (execute a signal onUpdate st)) Hrest)
      as (l2 & Hl2 & Hheld & Hle).
    exists (l1 ++ l2). cbn [run_all]. rewrite Hl2, Hl1, app_assoc.
    split; [reflexivity |]. rewrite filter_app, length_app.
    destruct Hcase as [[Hsame Hnone] | (Hb & Hnew & Hone)].
    + rewrite Hnone. simpl. split; [| exact Hle].
      intro Hb. apply Hheld. rewrite Hsame. exact Hb.
    + rewrite (Hheld Hnew), app_nil_r. split; [congruence |].
      rewrite Hone. simpl. lia.
Qed.

(** C3: with a browser held, [getPage] returns the cached page handle and
    changes nothing (no driver call at all, so no launch and no new page);
    over any sequence of page actions (no close among them) the two
    handles stay the same and no browser is launched and no page opened;
    and from any session, such a sequence acquires a browser at most
    once. *)
Theorem getPage_idempotent_when_ready : forall st b,
  browser st = Some b ->
  getPage st = (Ok (page st), st) /\
  (forall actions signal onUpdate,
     forallb is_page_action actions = true ->
     let st' := run_all actions signal onUpdate st in
     browser st' = Some b /\ page st' = page st /\
     filter is_launch (new_events st st') = []) /\
  (forall st0 actions signal onUpdate,
     forallb is_page_action actions = true ->
     (List.length
        (filter launched
           (new_events st0 (run_all actions signal onUpdate st0))) <= 1)%nat).
Proof.
  intros st b Hb. split; [apply (getPage_ready st b Hb) |]. split.
  - intros actions signal onUpdate Hall.
    destruct (run_all_when_ready actions signal onUpdate st b Hall Hb)
      as (H1 & H2 & l & Hl & Hn).
    cbv zeta. split; [exact H1 |]. split; [exact H2 |].
    rewrite (new_events_app _ _ _ Hl). apply filter_none. exact Hn.
  - intros st0 actions signal onUpdate Hall.
    destruct (run_all_launches actions signal onUpdate st0 Hall)
      as (l & Hl & _ & Hle).
    rewrite (new_events_app _ _ _ Hl). exact Hle.
Qed.

(** *** browser_click *)

Lemma split_after_prefix : forall (f : event -> bool) l0 tail pre e post,
  l0 ++ tail = pre ++ e :: post ->
  forallb (fun x => negb (f x)) l0 = true ->
  f e = true ->
  exists pre', pre = l0 ++ pre' /\ tail = pre' ++ e :: post.
Proof.
  intros f l0. induction l0 as [| x l0 IH]; intros tail pre e post H Hl0 He.
  - exists pre. auto.
  - simpl in Hl0. apply andb_true_iff in Hl0 as [Hx Hl0].
    destruct pre as [| y pre]; simpl in H; inversion H; subst.
    + rewrite He in Hx. discriminate.
    + destruct (IH tail pre e post H2 Hl0 He) as (pre' & -> & ->).
      exists pre'. auto.
Qed.

(** What a run of [browser_click] adds to the record: the calls of
    [getPage], none of them a click, and then nothing, or a probe that
    was rejected or found nothing, or a successful probe followed by the
    rest. *)
Lemma click_events : forall params signal onUpdate st,
  exists l0 tail,
    new_events st (snd (browser_click params signal onUpdate st)) = l0 ++ tail /\
    forallb no_click l0 = true /\
    (tail = [] \/
     exists q rest,
       tail = q :: rest /\
       is_query (ClickParams.selector params) q = true /\
       (ev_err q = None \/ rest = [])).
Proof.
  intros params signal onUpdate st.
  destruct (getPage_no_click st) as (l0 & Hl0 & Hn0 & _).
  unfold browser_click, bind at 1.
  destruct (getPage st) as [[p | e] st1]; simpl in Hl0.
  - unfold bind at 1.
    assert (Hnot : exists st2, notify onUpdate
              ("Clicking: " ++ ClickParams.selector params ++ "...")%string st1
              = (Ok tt, st2) /\ log st2 = log st1 /\ world st2 = world st1).
    { destruct onUpdate; simpl; eexists; split; reflexivity || auto. }
    destruct Hnot as (st2 & -> & Hl2 & Hw2).
    destruct p as [pg |].
    + unfold bind at 1. simpl on_page. unfold perform at 1.
      destruct (driver _ (Query pg (ClickParams.selector params)) (world st2))
        as [[[el |] | e] w3].
      * set (st3 := mkState _ _ _ _ _).
        assert (Hk : traced any_event
          ((if truthy_bool (ClickParams.waitForNavigation params)
            then on_page (Some pg) "waitForNavigation" (fun pg0 =>
                   ClickAndWaitForNavigation pg0 (ClickParams.selector params)
                     "networkidle0")
            else on_page (Some pg) "click" (fun pg0 =>
                   Click pg0 (ClickParams.selector params))) ;;
           let* url1 := on_page (Some pg) "url" Url in
           let* url2 := on_page (Some pg) "url" Url in
           ret (mkEnvelope
                  [ Text (check_mark ++ " Clicked: "
                            ++ ClickParams.selector params)%string;
                    Text ("Current URL: " ++ url1)%string ]
                  [ ("selector", JStr (ClickParams.selector params));
                    ("url", JStr url2) ]
                  None))) by walk.
        destruct (Hk st3) as (rest & Hrest & _ & _).
        exists l0, (Ev (existT _ _ (Query pg (ClickParams.selector params))) None
                      :: rest).
        split.
        { apply new_events_app. rewrite Hrest. subst st3. simpl.
          rewrite Hl2, Hl0, <- !app_assoc. reflexivity. }
        split; [exact Hn0 |]. right. eexists _, rest.
        split; [reflexivity |]. split; [| left; reflexivity].
        simpl. apply String.eqb_refl.
      * exists l0, [Ev (existT _ _ (Query pg (ClickParams.selector params))) None].
        split.
        { apply new_events_app. simpl. rewrite Hl2, Hl0, <- app_assoc.
          reflexivity. }
        split; [exact Hn0 |]. right. eexists _, [].
        split; [reflexivity |]. split; [| left; reflexivity].
        simpl. apply String.eqb_refl.
      * exists l0, [Ev (existT _ _ (Query pg (ClickParams.selector params)))
                       (Some e)].
        split.
        { apply new_events_app. simpl. rewrite Hl2, Hl0, <- app_assoc.
          reflexivity. }
        split; [exact Hn0 |]. right. eexists _, [].
        split; [reflexivity |]. split; [| right; reflexivity].
        simpl. apply String.eqb_refl.
    + exists l0, []. split.
      { apply new_events_app. simpl. rewrite Hl2, Hl0, app_nil_r.
        reflexivity. }
      auto.
  - exists l0, []. split.
    { apply new_events_app. simpl. rewrite Hl0, app_nil_r. reflexivity. }
    auto.
Qed.

Lemma query_is_no_click : forall sel q,
  is_query sel q = true -> is_click q = false.
Proof.
  intros sel [[A c] o]. unfold is_query, is_click. simpl.
  destruct c; simpl; congruence.
Qed.

Lemma click_probe_first : forall params signal onUpdate st pre e post,
  new_events st (snd (browser_click params signal onUpdate st))
    = pre ++ e :: post ->
  is_click e = true ->
  exists q, In q pre /\
            is_query (ClickParams.selector params) q = true /\
            ev_err q = None.
Proof.
  intros params signal onUpdate st pre e post Hnew He.
  destruct (click_events params signal onUpdate st)
    as (l0 & tail & Hsplit & Hn0 & Htail).
  rewrite Hsplit in Hnew.
  destruct (split_after_prefix is_click l0 tail pre e post Hnew Hn0 He)
    as (pre' & -> & Ht).
  destruct Htail as [-> | (q & rest & -> & Hq & Hrest)].
  - destruct pre'; discriminate Ht.
  - destruct pre' as [| q' pre'']; simpl in Ht; inversion Ht; subst.
    + rewrite (query_is_no_click _ _ Hq) in He. discriminate.
    + exists q'. split; [apply in_or_app; right; left; reflexivity |].
      split; [exact Hq |].
      destruct Hrest as [Hok | Hnil]; [exact Hok |].
      destruct pre''; discriminate Hnil.
Qed.

(** C6: when the probe [p.$(selector)] finds no element, [browser_click]
    throws the error "Element not found: <selector>"; the probe is the
    last driver call of the run, so no click is attempted and the world is
    the one the probe left; and in every run of [browser_click] a click is
    preceded by a successful probe of the same selector. *)
Theorem click_absent_selector : forall params signal onUpdate st p st1 w2,
  getPage st = (Ok (Some p), st1) ->
  driver _ (Query p (ClickParams.selector params)) (world st1) = (Ok None, w2) ->
  let sel := ClickParams.selector params in
  let r := browser_click params signal onUpdate st in
  fst r = Throw (element_not_found sel) /\
  world (snd r) = w2 /\
  browser (snd r) = browser st1 /\ page (snd r) = page st1 /\
  new_events st1 (snd r) = [Ev (existT _ _ (Query p sel)) None] /\
  filter is_click (new_events st (snd r)) = [] /\
  (forall st0 pre e post,
     new_events st0 (snd (browser_click params signal onUpdate st0))
       = pre ++ e :: post ->
     is_click e = true ->
     exists q, In q pre /\ is_query sel q = true /\ ev_err q = None).
Proof.
  intros params signal onUpdate st p st1 w2 Hpage Hprobe. cbv zeta.
  destruct (getPage_no_click st) as (l0 & Hl0 & Hn0 & _).
  rewrite Hpage in Hl0. simpl in Hl0.
  assert (Hrun : exists st',
            browser_click params signal onUpdate st
              = (Throw (element_not_found (ClickParams.selector params)), st') /\
            world st' = w2 /\ browser st' = browser st1 /\
            page st' = page st1 /\
            log st' = log st1 ++
              [Ev (existT _ _ (Query p (ClickParams.selector params))) None]).
  { unfold browser_click, bind. rewrite Hpage.
    destruct onUpdate; simpl; unfold perform; simpl; rewrite Hprobe;
      eexists; (split; [reflexivity |]); simpl; auto. }
  destruct Hrun as (st' & -> & Hw & Hb & Hp & Hlog). simpl.
  repeat split; auto.
  - apply new_events_app. exact Hlog.
  - rewrite (new_events_app st st' (l0 ++ [Ev (existT _ _
               (Query p (ClickParams.selector params))) None])).
    + apply filter_none. rewrite forallb_app. fold no_click. rewrite Hn0.
      reflexivity.
    + rewrite Hlog, Hl0, app_assoc. reflexivity.
  - intros st0 pre e post. apply click_probe_first.
Qed.

(** *** Failures and envelopes *)

Lemma execute_traced : forall a signal onUpdate,
  traced any_event (execute a signal onUpdate).
Proof.
  pose proof getPage_traced as Hg.
  intros a signal onUpdate.
  destruct a; cbn [execute];
    [ unfold browser_navigate | unfold browser_screenshot
    | unfold browser_click | unfold browser_type
    | unfold browser_get_text, extract_text
    | unfold browser_scroll, scroll_step
    | unfold browser_wait_for | unfold browser_debug
    | unfold browser_close ];
    unfold when;
    repeat first [ exact Hg | progress walk ].
Qed.

Lemma execute_returns : forall a signal onUpdate,
  returns (fun env => isError env = None) (execute a signal onUpdate).
Proof.
  intros a signal onUpdate.
  destruct a; cbn [execute];
    [ unfold browser_navigate | unfold browser_screenshot
    | unfold browser_click | unfold browser_type
    | unfold browser_get_text
    | unfold browser_scroll
    | unfold browser_wait_for | unfold browser_debug
    | unfold browser_close, browser_closed ];
    walk; reflexivity.
Qed.

Lemma propagates_rejection : forall A (r : outcome A) l ev e,
  propagates r l -> In ev l -> ev_err ev = Some e -> r = Throw e.
Proof.
  intros A r l ev e Hr Hin He.
  assert (Hbad : forallb ev_ok l = true -> False).
  { intro Hall. rewrite forallb_forall in Hall. specialize (Hall ev Hin).
    unfold ev_ok in Hall. rewrite He in Hall. discriminate. }
  destruct r as [a | e']; simpl in Hr; [contradiction |].
  destruct Hr as [Hall | (l0 & c & -> & Hall)]; [contradiction |].
  apply in_app_or in Hin as [Hin | [<- | []]].
  - rewrite forallb_forall in Hall. specialize (Hall ev Hin).
    unfold ev_ok in Hall. rewrite He in Hall. discriminate.
  - simpl in He. congruence.
Qed.

Lemma bind_throws : forall A B (m : M A) (f : A -> M B) st e,
  fst (m st) = Throw e -> fst (bind m f st) = Throw e.
Proof.
  intros A B m f st e H. unfold bind.
  destruct (m st) as [[a | e'] st1]; simpl in *; [discriminate |].
  injection H as ->. reflexivity.
Qed.

Lemma getPage_throws_to_caller : forall a signal onUpdate st e,
  is_page_action a = true ->
  fst (getPage st) = Throw e ->
  fst (execute a signal onUpdate st) = Throw e.
Proof.
  intros a signal onUpdate st e Ha H.
  destruct a; try discriminate Ha; cbn [execute];
    [ unfold browser_navigate | unfold browser_screenshot
    | unfold browser_click | unfold browser_type
    | unfold browser_get_text | unfold browser_scroll
    | unfold browser_wait_for | unfold browser_debug ];
    apply bind_throws; exact H.
Qed.

Lemma getPage_findChrome_throws : forall st e,
  browser st = None ->
  findChrome (world st) = Throw e ->
  fst (getPage st) = Throw e /\ e = chrome_not_found.
Proof.
  intros st e Hb Hfind. split.
  - unfold getPage, in_world, bind, get_browser. rewrite Hb, Hfind.
    reflexivity.
  - unfold findChrome in Hfind.
    pose proof (probe_first (world st) chrome_paths) as H.
    rewrite Hfind in H. apply H.
Qed.

Lemma probed_selector_truthy : forall (o : option string) sel,
  (if truthy_str o then o else None) = Some sel ->
  o = Some sel /\ truthy_str (Some sel) = true.
Proof.
  intros [s |] sel H; simpl in H; [| discriminate].
  destruct (negb (String.eqb s "")) eqn:Hs; [| discriminate].
  inversion H; subst. split; [reflexivity | exact Hs].
Qed.

(** A probe that finds nothing: the tool throws "Element not found". *)
Lemma null_probe_throws : forall a signal onUpdate st p st1 sel w2,
  getPage st = (Ok (Some p), st1) ->
  probed_selector a = Some sel ->
  driver _ (Query p sel) (world st1) = (Ok None, w2) ->
  fst (execute a signal onUpdate st) = Throw (element_not_found sel).
Proof.
  intros a signal onUpdate st p st1 sel w2 Hpage Hsel Hprobe.
  destruct a; simpl in Hsel; try discriminate Hsel; cbn [execute].
  - apply probed_selector_truthy in Hsel as [Hs Htruthy].
    unfold browser_screenshot, bind. rewrite Hpage, Hs, Htruthy.
    destruct onUpdate; simpl; unfold perform; simpl; rewrite Hprobe;
      reflexivity.
  - injection Hsel as <-.
    unfold browser_click, bind. rewrite Hpage.
    destruct onUpdate; simpl; unfold perform; simpl; rewrite Hprobe;
      reflexivity.
  - injection Hsel as <-.
    unfold browser_type, bind. rewrite Hpage.
    destruct onUpdate; simpl; unfold perform; simpl; rewrite Hprobe;
      reflexivity.
  - apply probed_selector_truthy in Hsel as [Hs Htruthy].
    unfold browser_get_text, extract_text, bind. rewrite Hpage, Hs, Htruthy.
    simpl; unfold perform; simpl; rewrite Hprobe; reflexivity.
Qed.

(** C1 (as the code has it): for each of the eight page tools, a failure
    is raised to the caller of [execute] and never packed into an
    envelope.  No returned envelope carries an error flag; a rejected
    driver call makes [execute] throw that very rejection; a failure of
    [getPage] is the failure of [execute], and when no executable is found
    it is the "Chrome/Chromium not found" error of [findChrome]; and a
    probe that finds no element for the selector of click, type, get_text
    or screenshot makes [execute] throw the error whose message is
    "Element not found: <selector>". *)
Theorem failures_are_raised : forall a signal onUpdate st,
  is_page_action a = true ->
  (forall env, fst (execute a signal onUpdate st) = Ok env ->
               isError env = None) /\
  (forall ev e,
     In ev (new_events st (snd (execute a signal onUpdate st))) ->
     ev_err ev = Some e ->
     fst (execute a signal onUpdate st) = Throw e) /\
  (forall e,
     fst (getPage st) = Throw e ->
     fst (execute a signal onUpdate st) = Throw e) /\
  (forall e,
     browser st = None ->
     findChrome (world st) = Throw e ->
     fst (execute a signal onUpdate st) = Throw chrome_not_found /\
     err_message chrome_not_found =
       ("Chrome/Chromium not found. "
          ++ "Install with: sudo dnf install chromium")%string) /\
  (forall p st1 sel w2,
     getPage st = (Ok (Some p), st1) ->
     probed_selector a = Some sel ->
     driver _ (Query p sel) (world st1) = (Ok None, w2) ->
     fst (execute a signal onUpdate st) = Throw (element_not_found sel) /\
     err_name (element_not_found sel) = "Error"%string /\
     err_message (element_not_found sel)
       = ("Element not found: " ++ sel)%string).
Proof.
  intros a signal onUpdate st Ha. split; [| split; [| split; [| split]]].
  - intros env H. exact (execute_returns a signal onUpdate st env H).
  - intros ev e Hin He.
    destruct (execute_traced a signal onUpdate st) as (l & Hl & _ & Hr).
    rewrite (new_events_app _ _ _ Hl) in Hin.
    exact (propagates_rejection _ _ l ev e Hr Hin He).
  - intros e H. exact (getPage_throws_to_caller a signal onUpdate st e Ha H).
  - intros e Hb Hfind.
    destruct (getPage_findChrome_throws st e Hb Hfind) as [Hget ->].
    split; [| reflexivity].
    exact (getPage_throws_to_caller a signal onUpdate st _ Ha Hget).
  - intros p st1 sel w2 Hpage Hsel Hprobe.
    split; [| split; reflexivity].
    exact (null_probe_throws a signal onUpdate st p st1 sel w2
             Hpage Hsel Hprobe).
Qed.

(** C4 (as the code has it): the cancellation signal handed to a tool is
    never consulted: the outcome and the effects of an action are the same
    for any two signals. *)
Theorem signal_is_ignored : forall a signal signal' onUpdate st,
  execute a signal onUpdate st = execute a signal' onUpdate st.
Proof.
  intros a signal signal' onUpdate st. destruct a; reflexivity.
Qed.

(** *** browser_get_text and browser_scroll *)

Lemma substring_prefix : forall m s,
  (m <= String.length s)%nat ->
  exists rest,
    s = (String.substring 0 m s ++ rest)%string /\
    String.length (String.substring 0 m s) = m.
Proof.
  induction m as [| m IH]; intros s Hm.
  - exists s. destruct s; simpl; auto.
  - destruct s as [| c s]; simpl in Hm; [lia |].
    destruct (IH s ltac:(lia)) as (rest & Hs & Hlen).
    exists rest. simpl. split; [f_equal; exact Hs | f_equal; exact Hlen].
Qed.

Lemma slice0_prefix : forall text m,
  0 <= m <= str_length text ->
  exists rest,
    text = (slice0 text m ++ rest)%string /\ str_length (slice0 text m) = m.
Proof.
  intros text m Hm. unfold slice0, str_length in *.
  replace (m <? 0) with false by (symmetry; apply Z.ltb_ge; lia).
  rewrite Z.min_l by lia.
  destruct (substring_prefix (Z.to_nat m) text ltac:(lia)) as (rest & Hs & Hl).
  exists rest. split; [exact Hs |]. rewrite Hl. lia.
Qed.

Lemma num_or_positive : forall x d,
  (forall z, x = Some z -> 0 <= z) -> 0 < d ->
  0 < num_or x d /\ (forall z, x = Some z -> 0 < z -> num_or x d = z).
Proof.
  intros [z |] d Hx Hd; simpl.
  - specialize (Hx z eq_refl). destruct (Z.eqb_spec z 0).
    + split; [exact Hd |]. intros z' Hz Hpos. inversion Hz; subst. lia.
    + split; [lia |]. intros z' Hz _. congruence.
  - split; [exact Hd |]. intros z Hz. discriminate.
Qed.

(** C5 (as the code has it): let [m] be the cap in force, which is
    [maxLength] when that is a positive integer and the default 10000 when
    it is 0 or absent.  When the text is extracted and has length [L],
    [browser_get_text] returns one text item and the details [length = L],
    [truncated = (L > m)]; for [L > m] the item is the first [m] characters
    of the text followed by the truncation marker, for [L <= m] it is the
    text itself. *)
Theorem get_text_truncates_at_cap :
  forall selector maxLength st p st1 text st2 u st3,
  (forall z, maxLength = Some z -> 0 <= z) ->
  getPage st = (Ok p, st1) ->
  extract_text p selector st1 = (Ok text, st2) ->
  on_page p "url" Url st2 = (Ok u, st3) ->
  let L := str_length text in
  let m := num_or maxLength default_max_length in
  exists shown,
    browser_get_text (GetTextParams.mk selector maxLength) st =
      (Ok (mkEnvelope
             [ Text shown ]
             [ ("length", JNum L);
               ("truncated", JBool (L >? m));
               ("url", JStr u) ]
             None),
       st3) /\
    0 < m /\
    (forall z, maxLength = Some z -> 0 < z -> m = z) /\
    (m < L ->
     exists first rest,
       text = (first ++ rest)%string /\
       str_length first = m /\
       shown = (first ++ truncation_marker)%string) /\
    (L <= m -> shown = text).
Proof.
  intros selector maxLength st p st1 text st2 u st3 Hmax Hpage Htext Hurl.
  cbv zeta.
  destruct (num_or_positive maxLength default_max_length Hmax eq_refl)
    as [Hpos Hsame].
  exists (truncate_text text (num_or maxLength default_max_length)).
  split.
  { unfold browser_get_text, bind. cbn [GetTextParams.selector
      GetTextParams.maxLength]. rewrite Hpage, Htext, Hurl. reflexivity. }
  split; [exact Hpos |]. split; [exact Hsame |].
  unfold truncate_text. split.
  - intro Hlt.
    replace (str_length text >? num_or maxLength default_max_length) with true
      by (symmetry; apply Z.gtb_lt; lia).
    destruct (slice0_prefix text (num_or maxLength default_max_length)
                ltac:(lia)) as (rest & Hs & Hl).
    exists (slice0 text (num_or maxLength default_max_length)), rest. auto.
  - intro Hle.
    replace (str_length text >? num_or maxLength default_max_length) with false;
      [reflexivity |].
    symmetry. rewrite Z.gtb_ltb. apply Z.ltb_ge. exact Hle.
Qed.


(** *** browser_close and session_shutdown, for any driver *)

(** The shutdown handler never throws and always clears both handles. *)
Lemma session_shutdown_clears : forall st,
  fst (session_shutdown st) = Ok tt /\
  (browser st <> None ->
   browser (snd (session_shutdown st)) = None /\
   page (snd (session_shutdown st)) = None).
Proof.
  intro st. unfold session_shutdown, bind, get_browser, swallow, perform.
  destruct (browser st) as [b |]; simpl.
  - destruct (driver unit (BrowserClose b) (world st)) as [[[] | e] w'];
      simpl; auto.
  - split; [reflexivity | congruence].
Qed.

(** When the release of the held browser is not rejected, or no browser is
    held, [browser_close] succeeds, both handles are null afterwards, and
    a second [browser_close] succeeds and changes nothing. *)
Lemma close_twice_when_release_succeeds : forall st,
  well_formed st ->
  (forall b, browser st = Some b ->
             fst (driver unit (BrowserClose b) (world st)) = Ok tt) ->
  let r1 := browser_close st in
  let r2 := browser_close (snd r1) in
  fst r1 = Ok browser_closed /\ fst r2 = Ok browser_closed /\
  browser (snd r1) = None /\ page (snd r1) = None /\ snd r2 = snd r1.
Proof.
  intros st Hwf Hrel. cbv zeta.
  unfold browser_close, bind, get_browser, perform, set_browser, set_page.
  destruct (browser st) as [b |] eqn:Hb.
  - specialize (Hrel b eq_refl). simpl.
    destruct (driver unit (BrowserClose b) (world st)) as [r w'].
    simpl in Hrel. subst r. simpl. auto.
  - simpl. rewrite Hb. simpl. repeat split; auto.
Qed.

(** A rejected release: [browser_close] throws it and assigns nothing. *)
Lemma browser_close_release_rejected : forall st b e w',
  browser st = Some b ->
  driver unit (BrowserClose b) (world st) = (Throw e, w') ->
  browser_close st =
    (Throw e,
     mkState (browser st) (page st) w'
             (log st ++ [Ev (existT _ _ (BrowserClose b)) (Some e)])
             (updates st)).
Proof.
  intros st b e w' Hb Hrel.
  unfold browser_close, bind, get_browser, perform. rewrite Hb. simpl.
  rewrite Hrel, Hb. reflexivity.
Qed.

(** A rejected [newPage]: [getPage] throws it with the browser handle
    already assigned and the browser left open. *)
Lemma getPage_newPage_rejected : forall st path b w1 e w2,
  browser st = None ->
  findChrome (world st) = Ok path ->
  driver Browser (Launch true path launch_args) (world st) = (Ok b, w1) ->
  driver Page (NewPage b) w1 = (Throw e, w2) ->
  getPage st =
    (Throw e,
     mkState (Some b) (page st) w2
             (log st ++ [Ev (existT _ _ (Launch true path launch_args)) None;
                         Ev (existT _ _ (NewPage b)) (Some e)])
             (updates st)).
Proof.
  intros st path b w1 e w2 Hb Hfind Hlaunch Hnew.
  unfold getPage, in_world, bind, get_browser, perform, set_browser.
  rewrite Hb, Hfind. simpl. rewrite Hlaunch. simpl. rewrite Hnew. simpl.
  rewrite <- app_assoc. reflexivity.
Qed.

(** A failure to locate or to launch the browser leaves the session
    without handles. *)
Lemma getPage_failure_before_browser : forall st e,
  well_formed st ->
  browser st = None ->
  (findChrome (world st) = Throw e \/
   exists path, findChrome (world st) = Ok path /\
     fst (driver Browser (Launch true path launch_args) (world st)) = Throw e) ->
  fst (getPage st) = Throw e /\
  browser (snd (getPage st)) = None /\ page (snd (getPage st)) = None.
Proof.
  intros st e Hwf Hb Hfail.
  unfold getPage, in_world, bind, get_browser, perform. rewrite Hb.
  destruct Hfail as [Hf | (path & Hf & Hl)]; rewrite Hf; simpl.
  - auto.
  - destruct (driver Browser _ (world st)) as [r w']. simpl in Hl. subst r.
    simpl. auto.
Qed.

(** *** Runs stop at the first rejection *)

Lemma all_ok_middle : forall pre ev post,
  forallb ev_ok (pre ++ ev :: post) = true -> ev_err ev = None.
Proof.
  intros pre ev post H. rewrite forallb_app in H.
  apply andb_true_iff in H as [_ H]. simpl in H.
  apply andb_true_iff in H as [H _]. unfold ev_ok in H.
  destruct (ev_err ev); [discriminate | reflexivity].
Qed.

Lemma last_of_split : forall (l0 : list event) last pre ev post,
  l0 ++ [last] = pre ++ ev :: post ->
  (post = [] /\ ev = last /\ pre = l0) \/
  (exists post', l0 = pre ++ ev :: post').
Proof.
  induction l0 as [| x l0 IH]; intros last pre ev post H.
  - destruct pre as [| y pre]; simpl in H; injection H as H1 H2.
    + subst. left. auto.
    + destruct pre; discriminate H2.
  - destruct pre as [| y pre]; simpl in H; injection H as H1 H2.
    + subst. right. exists l0. reflexivity.
    + subst. destruct (IH _ _ _ _ H2) as [(-> & -> & ->) | (post' & ->)].
      * left. auto.
      * right. exists post'. reflexivity.
Qed.

(** X1: in the run of any tool, a rejected driver call is the last driver
    call: nothing is attempted after it, and the tool throws that
    rejection. *)
Theorem no_call_after_rejection :
  forall a signal onUpdate st pre ev post e,
  new_events st (snd (execute a signal onUpdate st)) = pre ++ ev :: post ->
  ev_err ev = Some e ->
  post = [] /\ fst (execute a signal onUpdate st) = Throw e.
Proof.
  intros a signal onUpdate st pre ev post e Hnew He.
  destruct (execute_traced a signal onUpdate st) as (l & Hl & _ & Hr).
  rewrite (new_events_app _ _ _ Hl) in Hnew. subst l.
  assert (Hbad : forallb ev_ok (pre ++ ev :: post) = true -> False).
  { intro H. apply all_ok_middle in H. congruence. }
  destruct (fst (execute a signal onUpdate st)) as [env | e']; simpl in Hr;
    [contradiction |].
  destruct Hr as [Hall | (l0 & c & Hsplit & Hall)]; [contradiction |].
  symmetry in Hsplit.
  destruct (last_of_split _ _ _ _ _ Hsplit) as [(-> & -> & _) | (post' & ->)].
  - simpl in He. split; [reflexivity | congruence].
  - apply all_ok_middle in Hall. congruence.
Qed.

(** *** Who releases the browser *)

Lemma execute_no_close : forall a signal onUpdate,
  is_page_action a = true ->
  traced no_close (execute a signal onUpdate).
Proof.
  assert (Hg : traced no_close getPage) by (unfold getPage; walk).
  intros a signal onUpdate Ha.
  destruct a; try discriminate Ha; cbn [execute];
    [ unfold browser_navigate | unfold browser_screenshot
    | unfold browser_click | unfold browser_type
    | unfold browser_get_text, extract_text
    | unfold browser_scroll, scroll_step
    | unfold browser_wait_for | unfold browser_debug ];
    unfold when;
    repeat first [ exact Hg | progress walk ].
Qed.

(** X2: a page action (any tool but close) never releases the browser: its
    run contains no [browser.close()] call, and a browser handle held
    before it is the handle held after it, with the same page. *)
Theorem page_actions_never_close : forall a signal onUpdate st,
  is_page_action a = true ->
  filter is_close (new_events st (snd (execute a signal onUpdate st))) = [] /\
  (forall b, browser st = Some b ->
     browser (snd (execute a signal onUpdate st)) = Some b /\
     page (snd (execute a signal onUpdate st)) = page st).
Proof.
  intros a signal onUpdate st Ha. split.
  - destruct (execute_no_close a signal onUpdate Ha st) as (l & Hl & Hn & _).
    rewrite (new_events_app _ _ _ Hl). apply filter_none. exact Hn.
  - intros b Hb.
    destruct (page_action_when_ready a signal onUpdate st b Ha Hb)
      as (H1 & H2 & _). auto.
Qed.

(** X3: the shutdown handler never throws; afterwards no browser is held,
    and no page either if a browser was held; its only driver call is the
    release of the held browser (none when no browser is held); and a
    second shutdown changes nothing. *)
Theorem session_shutdown_total : forall st,
  fst (session_shutdown st) = Ok tt /\
  browser (snd (session_shutdown st)) = None /\
  page (snd (session_shutdown st))
    = match browser st with Some _ => None | None => page st end /\
  map ev_call (new_events st (snd (session_shutdown st)))
    = match browser st with
      | Some b => [existT _ _ (BrowserClose b)]
      | None => []
      end /\
  session_shutdown (snd (session_shutdown st))
    = (Ok tt, snd (session_shutdown st)).
Proof.
  intro st.
  unfold session_shutdown, bind, get_browser, swallow, perform,
    set_browser, set_page, new_events.
  destruct (browser st) as [b |] eqn:Hb; simpl.
  - destruct (driver unit (BrowserClose b) (world st)) as [[[] | e] w'];
      simpl; rewrite skipn_app, skipn_all, Nat.sub_diag; simpl; auto.
  - rewrite Hb. simpl. rewrite skipn_all. auto.
Qed.

(** *** The session invariant *)

Lemma getPage_handles : forall st,
  (browser (snd (getPage st)) = browser st /\
   page (snd (getPage st)) = page st) \/
  (exists b, browser (snd (getPage st)) = Some b).
Proof.
  intro st. destruct (browser st) as [b |] eqn:Hb.
  - rewrite (getPage_ready st b Hb). simpl. auto.
  - unfold getPage, in_world, bind, get_browser, get_page, set_browser,
      set_page, perform. rewrite Hb.
    destruct (findChrome (world st)) as [path | e]; simpl; [| auto].
    destruct (driver Browser _ (world st)) as [[b | e] w1]; simpl; [| auto].
    destruct (driver Page _ w1) as [[pg | e] w2]; simpl; [| eauto].
    destruct (driver unit (SetViewport _ _ _) w2) as [[[] | e] w3]; simpl;
      [| eauto].
    destruct (driver unit (SetUserAgent _ _) w3) as [[[] | e] w4]; simpl;
      eauto.
Qed.

Lemma execute_well_formed : forall a signal onUpdate st,
  well_formed st -> well_formed (snd (execute a signal onUpdate st)).
Proof.
  intros a signal onUpdate st Hwf.
  assert (Hgen : forall f : option Page -> M Envelope,
            (forall p, preserves (f p)) ->
            well_formed (snd (bind getPage f st))).
  { intros f Hp. unfold bind, well_formed.
    destruct (getPage_handles st) as [[H1 H2] | [b Hb]];
      destruct (getPage st) as [[p | e] st1]; simpl in *.
    - destruct (Hp p st1) as [H3 H4]. rewrite H3, H4, H1, H2. exact Hwf.
    - rewrite H1, H2. exact Hwf.
    - destruct (Hp p st1) as [H3 H4]. rewrite H3, Hb. discriminate.
    - rewrite Hb. discriminate. }
  destruct a; cbn [execute];
    [ unfold browser_navigate | unfold browser_screenshot
    | unfold browser_click | unfold browser_type
    | unfold browser_get_text, extract_text
    | unfold browser_scroll, scroll_step
    | unfold browser_wait_for | unfold browser_debug | ];
    try (apply Hgen; intro p; unfold when; walk).
  unfold browser_close, bind, get_browser, perform, set_browser, set_page,
    well_formed.
  destruct (browser st) as [b |] eqn:Hb; simpl.
  - destruct (driver unit (BrowserClose b) (world st)) as [[[] | e] w'];
      simpl; [reflexivity |]. rewrite Hb. discriminate.
  - rewrite Hb. intros _. apply Hwf. exact Hb.
Qed.

(** X4: the session invariant (a page handle is held only while a browser
    handle is held) holds when the extension is loaded and is kept by
    every tool, whatever the driver answers, and by the shutdown
    handler. *)
Theorem well_formed_kept : forall actions signal onUpdate st,
  well_formed st ->
  well_formed (run_all actions signal onUpdate st) /\
  well_formed (snd (session_shutdown (run_all actions signal onUpdate st))).
Proof.
  intros actions signal onUpdate st Hwf.
  assert (H : well_formed (run_all actions signal onUpdate st)).
  { revert st Hwf. induction actions as [| a rest IH]; intros st Hwf.
    - exact Hwf.
    - cbn [run_all]. apply IH. apply execute_well_formed. exact Hwf. }
  split; [exact H |].
  unfold well_formed. intros _.
  unfold session_shutdown, bind, get_browser, swallow, perform,
    set_browser, set_page.
  destruct (browser (run_all actions signal onUpdate st)) as [b |] eqn:Hb;
    simpl.
  - destruct (driver unit (BrowserClose b) _) as [[[] | e] w']; reflexivity.
  - apply H. exact Hb.
Qed.

(** *** Acquisition *)

(** X5: a [getPage] that starts without a browser and returns has made
    exactly four driver calls, all resolved and in this order: the launch
    of the executable [findChrome] found, headless and with the fixed
    sandbox-disabling arguments; a new page in that browser; the 1920 by
    1080 viewport; the fixed user agent.  It returns that page and holds
    both handles. *)
Theorem getPage_acquires : forall st p st1,
  browser st = None ->
  getPage st = (Ok p, st1) ->
  exists path b pg,
    findChrome (world st) = Ok path /\
    p = Some pg /\
    browser st1 = Some b /\
    page st1 = Some pg /\
    new_events st st1 =
      [ Ev (existT _ _ (Launch true path launch_args)) None;
        Ev (existT _ _ (NewPage b)) None;
        Ev (existT _ _ (SetViewport pg 1920 1080)) None;
        Ev (existT _ _ (SetUserAgent pg user_agent)) None ].
Proof.
  intros st p st1 Hb. unfold new_events.
  unfold getPage, in_world, bind, get_browser, get_page, set_browser,
    set_page, perform. rewrite Hb.
  destruct (findChrome (world st)) as [path | e]; simpl; [| discriminate].
  destruct (driver Browser _ (world st)) as [[b | e] w1]; simpl;
    [| discriminate].
  destruct (driver Page _ w1) as [[pg | e] w2]; simpl; [| discriminate].
  destruct (driver unit (SetViewport _ _ _) w2) as [[[] | e] w3]; simpl;
    [| discriminate].
  destruct (driver unit (SetUserAgent _ _) w3) as [[[] | e] w4]; simpl;
    [| discriminate].
  intro H. inversion H; subst; clear H. simpl.
  exists path, b, pg. repeat split.
  rewrite <- !app_assoc, skipn_app, skipn_all, Nat.sub_diag. reflexivity.
Qed.

(** X6: when the browser is launched and the page opened but
    [setViewport] is rejected, [getPage] throws the rejection with both
    handles already assigned and the user agent never set; the next
    [getPage] makes no driver call and returns that page. *)
Theorem getPage_viewport_rejected : forall st path b w1 pg w2 e w3,
  browser st = None ->
  findChrome (world st) = Ok path ->
  driver Browser (Launch true path launch_args) (world st) = (Ok b, w1) ->
  driver Page (NewPage b) w1 = (Ok pg, w2) ->
  driver unit (SetViewport pg 1920 1080) w2 = (Throw e, w3) ->
  fst (getPage st) = Throw e /\
  browser (snd (getPage st)) = Some b /\
  page (snd (getPage st)) = Some pg /\
  new_events st (snd (getPage st)) =
    [ Ev (existT _ _ (Launch true path launch_args)) None;
      Ev (existT _ _ (NewPage b)) None;
      Ev (existT _ _ (SetViewport pg 1920 1080)) (Some e) ] /\
  getPage (snd (getPage st)) = (Ok (Some pg), snd (getPage st)).
Proof.
  intros st path b w1 pg w2 e w3 Hb Hfind Hlaunch Hnew Hview.
  assert (Hrun : getPage st =
    (Throw e,
     mkState (Some b) (Some pg) w3
       (log st ++
          [ Ev (existT _ _ (Launch true path launch_args)) None;
            Ev (existT _ _ (NewPage b)) None;
            Ev (existT _ _ (SetViewport pg 1920 1080)) (Some e) ])
       (updates st))).
  { unfold getPage, in_world, bind, get_browser, set_browser, set_page,
      perform. rewrite Hb, Hfind. simpl. rewrite Hlaunch. simpl.
    rewrite Hnew. simpl. rewrite Hview. simpl.
    rewrite <- !app_assoc. reflexivity. }
  rewrite Hrun. simpl. repeat split.
  unfold new_events. simpl.
  rewrite skipn_app, skipn_all, Nat.sub_diag. reflexivity.
Qed.

(** X7: a [browser_close] whose release resolves leaves no handle, and
    the [getPage] that follows starts a new acquisition: its first driver
    call is the launch of the executable [findChrome] finds. *)
Theorem close_then_getPage_relaunches : forall st b w' path,
  browser st = Some b ->
  driver unit (BrowserClose b) (world st) = (Ok tt, w') ->
  findChrome w' = Ok path ->
  fst (browser_close st) = Ok browser_closed /\
  browser (snd (browser_close st)) = None /\
  page (snd (browser_close st)) = None /\
  exists o rest,
    new_events (snd (browser_close st))
               (snd (getPage (snd (browser_close st))))
    = Ev (existT _ _ (Launch true path launch_args)) o :: rest.
Proof.
  intros st b w' path Hb Hrel Hfind.
  assert (Hrun : browser_close st =
    (Ok browser_closed,
     mkState None None w'
       (log st ++ [Ev (existT _ _ (BrowserClose b)) None]) (updates st))).
  { unfold browser_close, bind, get_browser, perform, set_browser, set_page.
    rewrite Hb. simpl. rewrite Hrel. reflexivity. }
  rewrite Hrun. simpl. repeat split.
  set (L := log st ++ [Ev (existT _ _ (BrowserClose b)) None]).
  unfold new_events, getPage, in_world, bind, get_browser, get_page,
    set_browser, set_page, perform. simpl. rewrite Hfind. simpl.
  destruct (driver Browser _ w') as [[b1 | e] w1]; simpl.
  2:{ rewrite skipn_app, skipn_all, Nat.sub_diag. simpl. eauto. }
  destruct (driver Page _ w1) as [[pg | e] w2]; simpl.
  2:{ rewrite <- !app_assoc, skipn_app, skipn_all, Nat.sub_diag.
      simpl. eauto. }
  destruct (driver unit (SetViewport _ _ _) w2) as [[[] | e] w3]; simpl.
  2:{ rewrite <- !app_assoc, skipn_app, skipn_all, Nat.sub_diag.
      simpl. eauto. }
  destruct (driver unit (SetUserAgent _ _) w3) as [[[] | e] w4]; simpl;
    rewrite <- !app_assoc, skipn_app, skipn_all, Nat.sub_diag;
    simpl; eauto.
Qed.

(** *** Absent selectors in the other tools *)

Lemma truthy_nonempty : forall sel,
  sel <> ""%string -> truthy_str (Some sel) = true.
Proof.
  intros sel H. unfold truthy_str. apply String.eqb_neq in H.
  rewrite H. reflexivity.
Qed.

(** X8: in [browser_type], [browser_get_text] and [browser_screenshot],
    a non-empty selector whose probe finds no element makes the tool throw
    "Element not found: <selector>" with the probe as its last driver
    call: nothing is typed, no text is read, no screenshot is taken. *)
Theorem absent_selector_fails_fast :
  forall sel text clearFirst pressEnter maxLength fullPage signal onUpdate
         st p st1 w2,
  sel <> ""%string ->
  getPage st = (Ok (Some p), st1) ->
  driver _ (Query p sel) (world st1) = (Ok None, w2) ->
  let probe_only := fun r : outcome Envelope * State =>
    fst r = Throw (element_not_found sel) /\
    world (snd r) = w2 /\
    new_events st1 (snd r) = [Ev (existT _ _ (Query p sel)) None] in
  probe_only (browser_type (TypeParams.mk sel text clearFirst pressEnter)
                signal onUpdate st) /\
  probe_only (browser_get_text (GetTextParams.mk (Some sel) maxLength) st) /\
  probe_only (browser_screenshot (ScreenshotParams.mk fullPage (Some sel))
                signal onUpdate st).
Proof.
  intros sel text clearFirst pressEnter maxLength fullPage signal onUpdate
    st p st1 w2 Hsel Hpage Hprobe. cbv zeta.
  pose proof (truthy_nonempty sel Hsel) as Htruthy.
  split; [| split].
  - unfold browser_type, bind. rewrite Hpage.
    destruct onUpdate; simpl; unfold perform; simpl; rewrite Hprobe; simpl;
      (split; [reflexivity |]); (split; [reflexivity |]).
    + apply new_events_app. reflexivity.
    + apply new_events_app. reflexivity.
  - unfold browser_get_text, extract_text, bind. rewrite Hpage.
    cbn [GetTextParams.selector]. rewrite Htruthy.
    simpl; unfold perform; simpl; rewrite Hprobe; simpl.
    split; [reflexivity |]. split; [reflexivity |].
    apply new_events_app. reflexivity.
  - unfold browser_screenshot, bind. rewrite Hpage.
    cbn [ScreenshotParams.selector]. rewrite Htruthy.
    destruct onUpdate; simpl; unfold perform; simpl; rewrite Hprobe; simpl;
      (split; [reflexivity |]); (split; [reflexivity |]).
    + apply new_events_app. reflexivity.
    + apply new_events_app. reflexivity.
Qed.

(** *** browser_type *)

(** X9: once [browser_type] has found its element, the driver calls it
    makes on it are an initial part of [type_script], in that order: the
    field is cleared (triple click, Backspace) before anything is typed
    when [clearFirst] is set, and Enter is pressed only after the text was
    typed; when the tool returns, the whole script was carried out. *)
Theorem type_follows_script : forall params signal onUpdate st p st1 el w2,
  getPage st = (Ok (Some p), st1) ->
  driver _ (Query p (TypeParams.selector params)) (world st1)
    = (Ok (Some el), w2) ->
  exists done rest,
    map ev_call
        (new_events st1 (snd (browser_type params signal onUpdate st)))
      = existT _ _ (Query p (TypeParams.selector params)) :: done /\
    type_script params el = done ++ rest /\
    (forall env, fst (browser_type params signal onUpdate st) = Ok env ->
                 rest = []).
Proof.
  intros params signal onUpdate st p st1 el w2 Hpage Hprobe.
  unfold type_script, browser_type, bind, when. rewrite Hpage.
  destruct onUpdate; simpl; unfold perform; simpl; rewrite Hprobe; simpl;
    destruct (truthy_bool (TypeParams.clearFirst params));
    destruct (truthy_bool (TypeParams.pressEnter params));
    unfold bind, ret, perform; simpl;
    repeat match goal with
      | |- context [driver unit ?c ?w] =>
          destruct (driver unit c w) as [[[] | ?] ?]; simpl
      end;
    unfold new_events; simpl;
    rewrite <- ?app_assoc, skipn_app, skipn_all, Nat.sub_diag; simpl;
    eexists _, _;
    (split; [reflexivity |]); (split; [reflexivity |]);
    intros env Henv; first [discriminate Henv | reflexivity].
Qed.

Lemma str_length_app : forall a b,
  str_length (a ++ b)%string = str_length a + str_length b.
Proof.
  intros a b. unfold str_length.
  induction a as [| c a IH]; simpl String.length; [reflexivity |].
  rewrite !Nat2Z.inj_succ. lia.
Qed.

Lemma substring_whole : forall s, String.substring 0 (String.length s) s = s.
Proof. induction s as [| c s IH]; simpl; [reflexivity | f_equal; exact IH]. Qed.

Lemma slice0_whole : forall s n, str_length s <= n -> slice0 s n = s.
Proof.
  intros s n H. unfold slice0, str_length in *.
  replace (n <? 0) with false by (symmetry; apply Z.ltb_ge; lia).
  rewrite Z.min_r by exact H. rewrite Nat2Z.id. apply substring_whole.
Qed.

Lemma slice0_length_le : forall s n,
  0 <= n -> str_length (slice0 s n) <= n.
Proof.
  intros s n Hn. destruct (Z_le_gt_dec (str_length s) n) as [Hle | Hgt].
  - rewrite (slice0_whole s n Hle). exact Hle.
  - destruct (slice0_prefix s n ltac:(lia)) as (rest & _ & Hl). lia.
Qed.

(** X10: what [browser_type] returns echoes at most the first 50
    characters of the typed text, followed by "..." when the text is
    longer, while [textLength] in the details is the full length. *)
Theorem type_echo_capped : forall params signal onUpdate st env,
  fst (browser_type params signal onUpdate st) = Ok env ->
  exists shown,
    content env =
      [ Text (check_mark ++ " Typed into: " ++ TypeParams.selector params)%string;
        Text ("Text: " ++ shown)%string ] /\
    details env =
      [ ("selector"%string, JStr (TypeParams.selector params));
        ("textLength"%string, JNum (str_length (TypeParams.text params))) ] /\
    str_length shown <= 53 /\
    (str_length (TypeParams.text params) <= 50 ->
     shown = TypeParams.text params) /\
    (50 < str_length (TypeParams.text params) ->
     exists first rest,
       TypeParams.text params = (first ++ rest)%string /\
       str_length first = 50 /\
       shown = (first ++ "...")%string).
Proof.
  intros params signal onUpdate st env.
  assert (H : returns (fun env =>
    exists shown,
      content env =
        [ Text (check_mark ++ " Typed into: " ++ TypeParams.selector params)%string;
          Text ("Text: " ++ shown)%string ] /\
      details env =
        [ ("selector"%string, JStr (TypeParams.selector params));
          ("textLength"%string, JNum (str_length (TypeParams.text params))) ] /\
      str_length shown <= 53 /\
      (str_length (TypeParams.text params) <= 50 ->
       shown = TypeParams.text params) /\
      (50 < str_length (TypeParams.text params) ->
       exists first rest,
         TypeParams.text params = (first ++ rest)%string /\
         str_length first = 50 /\
         shown = (first ++ "...")%string))
    (browser_type params signal onUpdate)).
  { unfold browser_type. walk.
    eexists. split; [reflexivity |]. split; [reflexivity |].
    set (text := TypeParams.text params).
    destruct (Z.gtb_spec (str_length text) 50) as [Hgt | Hle].
    - pose proof (slice0_length_le text 50 ltac:(lia)) as Hlen.
      rewrite str_length_app. change (str_length "...") with 3.
      split; [lia |]. split; [lia |]. intros _.
      destruct (slice0_prefix text 50) as (rest & Htext & Hl).
      { unfold str_length in *. lia. }
      exists (slice0 text 50), rest. auto.
    - rewrite (slice0_whole text 50 Hle).
      assert (Hnil : (text ++ "")%string = text).
      { clear. induction text as [| c t IH]; simpl; [| rewrite IH];
          reflexivity. }
      rewrite Hnil. split; [lia |]. split; [reflexivity | lia]. }
  exact (H st env).
Qed.

(** *** browser_scroll *)

(** X11: a direction other than down, up, bottom and top is not refused:
    [browser_scroll] scrolls nothing, reads the current offset (its only
    driver call besides acquisition) and returns a success envelope with
    one text item, whose details name the direction and that offset; for
    an offset within the safe integers the text is
    "Scrolled <direction> (position: <offset>px)" after the check mark. *)
Theorem scroll_unknown_direction : forall direction amount st p st1 y w2,
  direction <> "down"%string -> direction <> "up"%string ->
  direction <> "bottom"%string -> direction <> "top"%string ->
  getPage st = (Ok (Some p), st1) ->
  driver Z (ScrollY p) (world st1) = (Ok y, w2) ->
  (exists shown,
     fst (browser_scroll (ScrollParams.mk direction amount) st) =
       Ok (mkEnvelope
             [ Text shown ]
             [ ("direction"%string, JStr direction);
               ("scrollPosition"%string, JNum y) ]
             None) /\
     (Z.abs y <= max_safe_integer ->
      shown = (check_mark ++ " Scrolled " ++ direction ++ " (position: "
                 ++ string_of_Z y ++ "px)")%string)) /\
  world (snd (browser_scroll (ScrollParams.mk direction amount) st)) = w2 /\
  new_events st1 (snd (browser_scroll (ScrollParams.mk direction amount) st))
    = [Ev (existT _ _ (ScrollY p)) None].
Proof.
  intros direction amount st p st1 y w2 Hd Hu Hb Ht Hpage Hy.
  apply String.eqb_neq in Hd, Hu, Hb, Ht.
  unfold browser_scroll, scroll_step, bind. rewrite Hpage.
  cbn [ScrollParams.direction ScrollParams.amount].
  rewrite Hd, Hu, Hb, Ht. simpl. unfold perform. rewrite Hy. simpl.
  split; [eexists; split; [reflexivity | intros _; reflexivity] |].
  split; [reflexivity |].
  apply new_events_app. reflexivity.
Qed.

(** X12: the amount matters only for down and up: for any other direction
    (bottom and top among them) [browser_scroll] is the same program
    whatever amount is passed. *)
Theorem scroll_amount_only_for_down_and_up : forall direction amount amount',
  direction <> "down"%string -> direction <> "up"%string ->
  browser_scroll (ScrollParams.mk direction amount) =
  browser_scroll (ScrollParams.mk direction amount').
Proof.
  intros direction amount amount' Hd Hu.
  apply String.eqb_neq in Hd, Hu.
  unfold browser_scroll, scroll_step.
  cbn [ScrollParams.direction ScrollParams.amount].
  rewrite Hd, Hu. reflexivity.
Qed.

(** *** browser_debug *)

Lemma html_preview_bounded : forall html,
  str_length (html_preview html) <= 3029 /\
  (str_length html <= 3000 ->
   html_preview html
     = ("HTML preview:" ++ String (ascii_of_nat 10) html)%string).
Proof.
  intro html. unfold html_preview.
  pose proof (slice0_length_le html 3000 ltac:(lia)) as Hlen.
  split.
  - rewrite str_length_app.
    change (String (ascii_of_nat 10) (slice0 html 3000)
              ++ (if str_length html >? 3000 then truncation_marker else ""))%string
      with ((String (ascii_of_nat 10) "" ++ slice0 html 3000)
              ++ (if str_length html >? 3000 then truncation_marker else ""))%string.
    rewrite !str_length_app.
    change (str_length "HTML preview:") with 13.
    change (str_length (String (ascii_of_nat 10) "")) with 1.
    destruct (str_length html >? 3000).
    + change (str_length truncation_marker) with 15. lia.
    + change (str_length "") with 0. lia.
  - intro Hle. rewrite (slice0_whole html 3000 Hle).
    replace (str_length html >? 3000) with false
      by (symmetry; rewrite Z.gtb_ltb; apply Z.ltb_ge; exact Hle).
    f_equal. simpl. f_equal.
    clear. induction html as [| c t IH]; simpl; [| rewrite IH]; reflexivity.
Qed.

Lemma html_preview_long : forall html,
  3000 < str_length html ->
  exists first rest,
    html = (first ++ rest)%string /\
    str_length first = 3000 /\
    html_preview html
      = ("HTML preview:" ++ String (ascii_of_nat 10) first
           ++ truncation_marker)%string.
Proof.
  intros html Hlt.
  destruct (slice0_prefix html 3000 ltac:(lia)) as (rest & Hs & Hl).
  exists (slice0 html 3000), rest. split; [exact Hs |].
  split; [exact Hl |]. unfold html_preview.
  replace (str_length html >? 3000) with true
    by (symmetry; apply Z.gtb_lt; lia).
  reflexivity.
Qed.

(** X13: when the screenshot, the title and the URL are read,
    [browser_debug] takes the screenshot of the full page and returns the
    four items "Debug Info:", "Title: " and the driver's title, "URL: "
    and the driver's URL, and the driver's PNG data, with details
    [title] and [url].  Without [includeHtml] (false or absent) nothing
    follows and the page's HTML is never read, in any run.  With it the
    HTML is read last and one text item follows, the preview of that
    HTML: "HTML preview:", a line break and the HTML, whole when it has
    at most 3000 characters, its first 3000 characters and the marker
    otherwise, never more than 3029 characters. *)
Theorem debug_envelope :
  forall params signal onUpdate st p st1 shot w2 title w3 url w4,
  getPage st = (Ok (Some p), st1) ->
  driver _ (PageScreenshot p (Some true)) (world st1) = (Ok shot, w2) ->
  driver _ (Title p) w2 = (Ok title, w3) ->
  driver _ (Url p) w3 = (Ok url, w4) ->
  (truthy_bool (DebugParams.includeHtml params) = false ->
   fst (browser_debug params signal onUpdate st) =
     Ok (mkEnvelope
           (debug_items title url shot)
           [ ("title"%string, JStr title); ("url"%string, JStr url) ]
           None) /\
   new_events st1 (snd (browser_debug params signal onUpdate st)) =
     [ Ev (existT _ _ (PageScreenshot p (Some true))) None;
       Ev (existT _ _ (Title p)) None;
       Ev (existT _ _ (Url p)) None ]) /\
  (forall html w5,
     truthy_bool (DebugParams.includeHtml params) = true ->
     driver _ (Content p) w4 = (Ok html, w5) ->
     fst (browser_debug params signal onUpdate st) =
       Ok (mkEnvelope
             (debug_items title url shot ++ [Text (html_preview html)])
             [ ("title"%string, JStr title); ("url"%string, JStr url) ]
             None) /\
     new_events st1 (snd (browser_debug params signal onUpdate st)) =
       [ Ev (existT _ _ (PageScreenshot p (Some true))) None;
         Ev (existT _ _ (Title p)) None;
         Ev (existT _ _ (Url p)) None;
         Ev (existT _ _ (Content p)) None ] /\
     str_length (html_preview html) <= 3029 /\
     (str_length html <= 3000 ->
      html_preview html
        = ("HTML preview:" ++ String (ascii_of_nat 10) html)%string) /\
     (3000 < str_length html ->
      exists first rest,
        html = (first ++ rest)%string /\
        str_length first = 3000 /\
        html_preview html
          = ("HTML preview:" ++ String (ascii_of_nat 10) first
               ++ truncation_marker)%string)) /\
  (forall st0,
     truthy_bool (DebugParams.includeHtml params) = false ->
     filter is_html_read
       (new_events st0 (snd (browser_debug params signal onUpdate st0))) = []).
Proof.
  intros params signal onUpdate st p st1 shot w2 title w3 url w4
    Hpage Hshot Htitle Hurl.
  split; [| split].
  - intro Hfalse. unfold browser_debug, bind. rewrite Hpage, Hfalse.
    destruct onUpdate; simpl; unfold perform; simpl; rewrite Hshot; simpl;
      rewrite Htitle; simpl; rewrite Hurl; simpl;
      (split; [reflexivity |]);
      apply new_events_app; rewrite <- !app_assoc; reflexivity.
  - intros html w5 Htrue Hhtml.
    pose proof (html_preview_bounded html) as [Hbound Hwhole].
    pose proof (html_preview_long html) as Hlong.
    unfold browser_debug, bind. rewrite Hpage, Htrue.
    destruct onUpdate; simpl; unfold perform; simpl; rewrite Hshot; simpl;
      rewrite Htitle; simpl; rewrite Hurl; simpl; rewrite Hhtml; simpl;
      (split; [reflexivity |]);
      (split; [apply new_events_app; rewrite <- !app_assoc; reflexivity |]);
      auto.
  - intros st0 Hfalse.
    assert (Hg : traced no_html_read getPage) by (unfold getPage; walk).
    assert (Ht : traced no_html_read (browser_debug params signal onUpdate)).
    { unfold browser_debug. rewrite Hfalse.
      repeat first [ exact Hg | progress walk ]. }
    destruct (Ht st0) as (l & Hl & Hn & _).
    rewrite (new_events_app _ _ _ Hl). apply filter_none. exact Hn.
Qed.

(** *** Selectors and screenshots *)

(** X14: an empty selector string counts as no selector; nothing is
    probed and no "Element not found" is thrown for it.  With selector ""
    [browser_screenshot] captures the page (its only driver call after
    acquisition, with [fullPage] as received) and returns the page caption
    and the driver's PNG data; [browser_get_text] reads the text of the
    whole document and then the URL, and returns that text under the cap
    in force. *)
Theorem empty_selector_is_no_selector :
  forall fullPage maxLength signal onUpdate st p st1,
  getPage st = (Ok (Some p), st1) ->
  (forall data w2,
     driver _ (PageScreenshot p fullPage) (world st1) = (Ok data, w2) ->
     fst (browser_screenshot (ScreenshotParams.mk fullPage (Some ""%string))
            signal onUpdate st) =
       Ok (mkEnvelope
             [ Text (check_mark ++ " "
                       ++ (if truthy_bool fullPage
                           then "Full page screenshot"
                           else "Viewport screenshot"))%string;
               Image data "image/png" ]
             [ ("fullPage"%string, js_opt_bool fullPage);
               ("selector"%string, JStr "") ]
             None) /\
     new_events st1
       (snd (browser_screenshot
               (ScreenshotParams.mk fullPage (Some ""%string))
               signal onUpdate st)) =
       [ Ev (existT _ _ (PageScreenshot p fullPage)) None ]) /\
  (forall text w2 u w3,
     driver _ (BodyInnerText p) (world st1) = (Ok text, w2) ->
     driver _ (Url p) w2 = (Ok u, w3) ->
     fst (browser_get_text (GetTextParams.mk (Some ""%string) maxLength) st) =
       Ok (mkEnvelope
             [ Text (truncate_text text
                       (num_or maxLength default_max_length)) ]
             [ ("length"%string, JNum (str_length text));
               ("truncated"%string,
                JBool (str_length text
                         >? num_or maxLength default_max_length));
               ("url"%string, JStr u) ]
             None) /\
     new_events st1
       (snd (browser_get_text (GetTextParams.mk (Some ""%string) maxLength)
               st)) =
       [ Ev (existT _ _ (BodyInnerText p)) None;
         Ev (existT _ _ (Url p)) None ]).
Proof.
  intros fullPage maxLength signal onUpdate st p st1 Hpage. split.
  - intros data w2 Hshot.
    unfold browser_screenshot, screenshot_caption, bind. rewrite Hpage.
    cbn [ScreenshotParams.selector ScreenshotParams.fullPage].
    destruct onUpdate; simpl; unfold perform; simpl; rewrite Hshot; simpl;
      (split; [destruct (truthy_bool fullPage); reflexivity |]);
      apply new_events_app; reflexivity.
  - intros text w2 u w3 Htext Hurl.
    unfold browser_get_text, extract_text, bind. rewrite Hpage.
    cbn [GetTextParams.selector GetTextParams.maxLength].
    simpl. unfold perform. rewrite Htext. simpl. rewrite Hurl. simpl.
    split; [reflexivity |].
    apply new_events_app. rewrite <- app_assoc. reflexivity.
Qed.

(** X15: with a non-empty selector whose element is found,
    [browser_screenshot] captures that element and nothing else, whatever
    [fullPage] says: after the probe its only driver call is the element's
    screenshot, and it returns the caption naming the selector and the
    PNG data. *)
Theorem screenshot_of_element : forall sel fullPage signal onUpdate
    st p st1 el w2 data w3,
  sel <> ""%string ->
  getPage st = (Ok (Some p), st1) ->
  driver _ (Query p sel) (world st1) = (Ok (Some el), w2) ->
  driver _ (ElementScreenshot el) w2 = (Ok data, w3) ->
  fst (browser_screenshot (ScreenshotParams.mk fullPage (Some sel))
         signal onUpdate st) =
    Ok (mkEnvelope
          [ Text (check_mark ++ " Screenshot of element: " ++ sel)%string;
            Image data "image/png" ]
          [ ("fullPage"%string, js_opt_bool fullPage);
            ("selector"%string, JStr sel) ]
          None) /\
  new_events st1
    (snd (browser_screenshot (ScreenshotParams.mk fullPage (Some sel))
            signal onUpdate st)) =
    [ Ev (existT _ _ (Query p sel)) None;
      Ev (existT _ _ (ElementScreenshot el)) None ].
Proof.
  intros sel fullPage signal onUpdate st p st1 el w2 data w3
    Hsel Hpage Hprobe Hshot.
  pose proof (truthy_nonempty sel Hsel) as Htruthy.
  unfold browser_screenshot, screenshot_caption, bind. rewrite Hpage.
  cbn [ScreenshotParams.selector ScreenshotParams.fullPage].
  rewrite Htruthy.
  destruct onUpdate; simpl; unfold perform; simpl; rewrite Hprobe; simpl;
    rewrite Hshot; simpl; (split; [reflexivity |]);
    apply new_events_app; rewrite <- app_assoc; reflexivity.
Qed.

(** *** Progress messages *)

Lemma quiet_ret : forall A (a : A), quiet (ret a).
Proof. intros A a st. reflexivity. Qed.

Lemma quiet_throw : forall A (e : err), quiet (throw (A:=A) e).
Proof. intros A e st. reflexivity. Qed.

Lemma quiet_bind : forall A B (m : M A) (f : A -> M B),
  quiet m -> (forall a, quiet (f a)) -> quiet (bind m f).
Proof.
  intros A B m f Hm Hf st. unfold bind. specialize (Hm st).
  destruct (m st) as [[a | e] st1]; simpl in *.
  - rewrite (Hf a st1). exact Hm.
  - exact Hm.
Qed.

Lemma quiet_perform : forall A (c : call A), quiet (perform c).
Proof.
  intros A c st. unfold perform.
  destruct (driver A c (world st)) as [r w']. reflexivity.
Qed.

Lemma quiet_on_page : forall A p method (c : Page -> call A),
  quiet (on_page p method c).
Proof.
  intros A [pg |] method c; simpl; [apply quiet_perform | apply quiet_throw].
Qed.

Lemma quiet_getPage : quiet getPage.
Proof.
  unfold getPage.
  repeat first
    [ apply quiet_bind; [| intro]
    | apply quiet_ret | apply quiet_perform
    | intro; reflexivity
    | match goal with |- quiet (match ?x with _ => _ end) => destruct x end ].
Qed.

(** Walks through a program that never calls [onUpdate]. *)
Ltac hush :=
  repeat first
    [ apply quiet_getPage
    | apply quiet_bind; [| intro]
    | apply quiet_ret | apply quiet_throw
    | apply quiet_perform | apply quiet_on_page
    | match goal with |- quiet (match ?x with _ => _ end) => destruct x end ].

Lemma progress_after_getPage :
  forall (onUpdate : bool) (msg : string) (rest : option Page -> M Envelope) st,
  (forall p, quiet (rest p)) ->
  updates (snd (bind getPage (fun p => bind (notify onUpdate msg)
                                             (fun _ => rest p)) st)) =
  updates st ++
    match fst (getPage st), onUpdate with
    | Ok _, true => [msg]
    | _, _ => []
    end.
Proof.
  intros onUpdate msg rest st Hrest. unfold bind.
  pose proof (quiet_getPage st) as Hq.
  destruct (getPage st) as [[p | e] st1]; simpl in *.
  - destruct onUpdate; simpl.
    + rewrite (Hrest p). simpl. rewrite Hq. reflexivity.
    + rewrite (Hrest p), Hq, app_nil_r. reflexivity.
  - rewrite Hq, app_nil_r. reflexivity.
Qed.

(** X16: a tool sends at most one progress message: the message of
    [progress_message], exactly when a callback was given, the tool is
    not get_text, scroll or close, and [getPage] returned.  It is sent
    before the tool touches the page, so it is sent even when the action
    then fails, and it is not sent when acquisition fails. *)
Theorem progress_messages : forall a signal onUpdate st,
  updates (snd (execute a signal onUpdate st)) =
  updates st ++
    match progress_message a, fst (getPage st), onUpdate with
    | Some msg, Ok _, true => [msg]
    | _, _, _ => []
    end.
Proof.
  intros a signal onUpdate st.
  destruct a; cbn [execute progress_message].
  - unfold browser_navigate. rewrite progress_after_getPage; [reflexivity |].
    intro p. hush.
  - unfold browser_screenshot. rewrite progress_after_getPage;
      [reflexivity |]. intro p. hush.
  - unfold browser_click. rewrite progress_after_getPage; [reflexivity |].
    intro p. hush.
  - unfold browser_type. rewrite progress_after_getPage; [reflexivity |].
    intro p. unfold when. hush.
  - rewrite app_nil_r.
    assert (H : quiet (browser_get_text params))
      by (unfold browser_get_text, extract_text; hush).
    apply H.
  - rewrite app_nil_r.
    assert (H : quiet (browser_scroll params))
      by (unfold browser_scroll, scroll_step; hush).
    apply H.
  - unfold browser_wait_for. rewrite progress_after_getPage; [reflexivity |].
    intro p. hush.
  - unfold browser_debug. rewrite progress_after_getPage; [reflexivity |].
    intro p. hush.
  - rewrite app_nil_r.
    assert (H : quiet browser_close).
    { unfold browser_close.
      repeat first
        [ apply quiet_bind; [| intro]
        | apply quiet_ret | apply quiet_perform
        | intro; reflexivity
        | match goal with
          | |- quiet (match ?x with _ => _ end) => destruct x
          end ]. }
    apply H.
Qed.

(** *** browser_navigate and browser_wait_for *)

(** X17: a navigation whose driver calls resolve makes three of them on
    the page, in order: [goto] with the requested URL, waiting for network
    idle when [waitForLoad] is true and for the DOM content otherwise; the
    title; the URL.  The envelope reports that title and the URL the page
    is on afterwards, not the URL that was asked for. *)
Theorem navigate_reports_final_url :
  forall params signal onUpdate st p st1 w2 title w3 final w4,
  getPage st = (Ok (Some p), st1) ->
  driver _ (Goto p (NavigateParams.url params)
                 (wait_until (NavigateParams.waitForLoad params)))
         (world st1) = (Ok tt, w2) ->
  driver _ (Title p) w2 = (Ok title, w3) ->
  driver _ (Url p) w3 = (Ok final, w4) ->
  fst (browser_navigate params signal onUpdate st) =
    Ok (mkEnvelope
          [ Text (check_mark ++ " Loaded: " ++ title)%string;
            Text ("URL: " ++ final)%string ]
          [ ("title"%string, JStr title); ("url"%string, JStr final) ]
          None) /\
  new_events st1 (snd (browser_navigate params signal onUpdate st)) =
    [ Ev (existT _ _ (Goto p (NavigateParams.url params)
                           (wait_until (NavigateParams.waitForLoad params))))
         None;
      Ev (existT _ _ (Title p)) None;
      Ev (existT _ _ (Url p)) None ].
Proof.
  intros params signal onUpdate st p st1 w2 title w3 final w4
    Hpage Hgoto Htitle Hurl.
  unfold wait_until in *. unfold browser_navigate, bind. rewrite Hpage.
  destruct onUpdate; simpl; unfold perform; simpl; rewrite Hgoto; simpl;
    rewrite Htitle; simpl; rewrite Hurl; simpl; (split; [reflexivity |]);
    apply new_events_app; rewrite <- !app_assoc; reflexivity.
Qed.

(** X18: [browser_wait_for] makes one driver call on the page,
    [waitForSelector] with the selector and the timeout exactly as
    received (an absent timeout stays absent); if it resolves the tool
    returns the confirmation naming the selector, and if it is rejected
    the tool throws the rejection. *)
Theorem wait_for_outcome : forall params signal onUpdate st p st1,
  getPage st = (Ok (Some p), st1) ->
  new_events st1 (snd (browser_wait_for params signal onUpdate st)) =
    [ Ev (existT _ _ (WaitForSelector p (WaitForParams.selector params)
                                      (WaitForParams.timeout params)))
         (match fst (driver _ (WaitForSelector p (WaitForParams.selector params)
                                               (WaitForParams.timeout params))
                            (world st1)) with
          | Ok _ => None
          | Throw e => Some e
          end) ] /\
  fst (browser_wait_for params signal onUpdate st) =
    match fst (driver _ (WaitForSelector p (WaitForParams.selector params)
                                         (WaitForParams.timeout params))
                      (world st1)) with
    | Ok _ =>
        Ok (mkEnvelope
              [ Text (check_mark ++ " Element appeared: "
                        ++ WaitForParams.selector params)%string ]
              [ ("selector"%string, JStr (WaitForParams.selector params)) ]
              None)
    | Throw e => Throw e
    end.
Proof.
  intros params signal onUpdate st p st1 Hpage.
  unfold browser_wait_for, bind. rewrite Hpage.
  destruct onUpdate; simpl; unfold perform; simpl;
    destruct (driver unit _ (world st1)) as [[[] | e] w2]; simpl;
    (split; [apply new_events_app; reflexivity | reflexivity]).
Qed.

(** *** A session without a page *)

(** X19: on a session that holds a browser but no page (what a rejected
    [newPage] leaves behind), every page action throws a TypeError for
    reading a property of null, makes no driver call and keeps the
    handles as they are; only close gets the session out of this state. *)
Theorem page_actions_on_null_page : forall a signal onUpdate st b,
  is_page_action a = true ->
  browser st = Some b ->
  page st = None ->
  (exists method,
     fst (execute a signal onUpdate st) = Throw (null_deref method)) /\
  new_events st (snd (execute a signal onUpdate st)) = [] /\
  browser (snd (execute a signal onUpdate st)) = Some b /\
  page (snd (execute a signal onUpdate st)) = None.
Proof.
  intros a signal onUpdate st b Ha Hb Hp.
  assert (Hnil : forall st', log st' = log st -> new_events st st' = []).
  { intros st' H. apply new_events_app. rewrite app_nil_r. exact H. }
  destruct a; try discriminate Ha; cbn [execute];
    [ unfold browser_navigate | unfold browser_screenshot
    | unfold browser_click | unfold browser_type
    | unfold browser_get_text, extract_text
    | unfold browser_scroll, scroll_step
    | unfold browser_wait_for | unfold browser_debug ];
    rewrite (bind_getPage_ready _ _ st b Hb), Hp; unfold bind;
    destruct onUpdate; simpl;
    repeat match goal with
      | |- context [match ?x with Some _ => _ | None => _ end] =>
          destruct x; simpl
      | |- context [if ?x then _ else _] => destruct x; simpl
      end;
    rewrite ?Hb, ?Hp;
    (split; [eexists; reflexivity |]);
    (split; [apply Hnil; reflexivity |]); auto.
Qed.

End Properties.

(** ** The extension run on the simulated environment *)

Local Open Scope list_scope.

(** C1, counterexample: clicking a selector that matches nothing makes
    [execute] throw; no envelope, flagged or not, is returned. *)
Lemma click_missing_selector_raises :
  fst (run click_missing None (sim_initial sim_world))
    = Throw (Error "Element not found: #missing") /\
  ~ (exists env,
       fst (run click_missing None (sim_initial sim_world)) = Ok env /\
       isError env = Some true).
Proof.
  split; [vm_compute; reflexivity |].
  intros (env & H & _). vm_compute in H. discriminate H.
Qed.

(** C2, the failing run: the browser launches and opening the page is
    rejected.  [getPage] throws the rejection, the browser handle stays
    set and the browser is not closed; the next [getPage] makes no driver
    call and returns the null page, and the next navigation dies on it. *)
Theorem newPage_failure_keeps_browser :
  fst (@getPage sim_env (sim_initial sim_newPage_broken))
    = Throw (protocol_error "Target.createTarget failed") /\
  browser sim_stuck = Some 1%nat /\
  page sim_stuck = None /\
  filter is_close (log sim_stuck) = [] /\
  @getPage sim_env sim_stuck = (Ok None, sim_stuck) /\
  fst (run navigate_example None sim_stuck) = Throw (null_deref "goto") /\
  filter is_launch (new_events sim_stuck
                      (snd (run navigate_example None sim_stuck))) = [].
Proof. vm_compute. repeat split. Qed.

(** C3, witness: a held session on the simulated machine. *)
Lemma getPage_idempotent_witness :
  browser (sim_ready sim_world) = Some 1%nat /\
  @getPage sim_env (sim_ready sim_world)
    = (Ok (Some 1%nat), sim_ready sim_world) /\
  filter is_launch
    (new_events (sim_ready sim_world)
       (@run_all sim_env [navigate_example; click_missing; get_text_three]
                 None true (sim_ready sim_world))) = [].
Proof.
  destruct (@getPage_idempotent_when_ready sim_env (sim_ready sim_world)
              1%nat eq_refl) as (Hget & Hrun & _).
  split; [reflexivity |]. split; [exact Hget |].
  destruct (Hrun [navigate_example; click_missing; get_text_three]
                 None true eq_refl) as (_ & _ & Hnone).
  exact Hnone.
Defined.

(** C4, counterexample: the signal is raised while the navigation (the
    fifth driver call of the run) is in flight; the navigation is carried
    through, the title and the URL are still read, and the action returns
    its success envelope. *)
Lemma navigate_survives_raised_signal :
  aborted_at raised_during_fifth_call
             (List.length (log (sim_initial sim_world))) = false /\
  aborted_at raised_during_fifth_call 5 = true /\
  nth_error (log (snd (run navigate_example (Some raised_during_fifth_call)
                           (sim_initial sim_world)))) 4
    = Some (Ev (existT _ _ (Goto 1%nat "https://example.com/" "networkidle0"))
               None) /\
  List.length (log (snd (run navigate_example (Some raised_during_fifth_call)
                             (sim_initial sim_world)))) = 7%nat /\
  fst (run navigate_example (Some raised_during_fifth_call)
           (sim_initial sim_world))
    = Ok (mkEnvelope
            [ Text (check_mark ++ " Loaded: Example Domain")%string;
              Text "URL: https://example.com/" ]
            [ ("title", JStr "Example Domain");
              ("url", JStr "https://example.com/") ]
            None).
Proof. vm_compute. repeat split. Qed.

(** C5, counterexample: a document of five characters read with
    [maxLength = 0].  The length exceeds the parameter, yet the text comes
    back whole and [truncated] is false. *)
Lemma get_text_zero_cap_not_truncated :
  str_length "hello" > 0 /\
  fst (run get_text_uncapped None (sim_initial sim_world))
    = Ok (mkEnvelope
            [ Text "hello" ]
            [ ("length", JNum 5);
              ("truncated", JBool false);
              ("url", JStr "https://example.com/") ]
            None) /\
  "hello" <> (slice0 "hello" 0 ++ truncation_marker)%string.
Proof.
  split; [reflexivity |]. split; [vm_compute; reflexivity |].
  vm_compute. discriminate.
Qed.

(** C5, witness: the same document read with [maxLength = 3]. *)
Lemma get_text_truncates_witness :
  exists shown,
    fst (run get_text_three None (sim_initial sim_world))
      = Ok (mkEnvelope
              [ Text shown ]
              [ ("length", JNum 5);
                ("truncated", JBool true);
                ("url", JStr "https://example.com/") ]
              None) /\
    shown = ("hel" ++ truncation_marker)%string.
Proof.
  assert (Hmax : forall z, Some 3 = Some z -> 0 <= z)
    by (intros z Hz; inversion Hz; lia).
  destruct (@get_text_truncates_at_cap sim_env None (Some 3)
              (sim_initial sim_world) (Some 1%nat) sim_acquired "hello"
              sim_text_read "https://example.com/" sim_url_read
              Hmax eq_refl eq_refl eq_refl)
    as (shown & Hrun & _ & _ & Hlt & _).
  exists shown. split.
  - unfold run, get_text_three. cbn [execute]. rewrite Hrun. reflexivity.
  - destruct (Hlt eq_refl) as (first & rest & Htext & Hlen & ->).
    f_equal. change (num_or (Some 3) default_max_length) with 3 in Hlen.
    destruct first as [| a [| b [| c [| d first]]]];
      try (vm_compute in Hlen; discriminate Hlen).
    + simpl in Htext. inversion Htext. reflexivity.
    + exfalso. unfold str_length in Hlen. cbn [String.length] in Hlen.
      rewrite !Nat2Z.inj_succ in Hlen. lia.
Defined.

(** C6, witness: a click on a selector the simulated page does not have. *)
Lemma click_absent_selector_witness :
  @getPage sim_env (sim_initial sim_world) = (Ok (Some 1%nat), sim_acquired) /\
  @driver sim_env _ (Query 1%nat "#missing") (world sim_acquired)
    = (Ok None, sim_world) /\
  fst (run click_missing None (sim_initial sim_world))
    = Throw (element_not_found "#missing") /\
  world (snd (run click_missing None (sim_initial sim_world))) = sim_world /\
  filter is_click
    (new_events (sim_initial sim_world)
       (snd (run click_missing None (sim_initial sim_world)))) = [].
Proof.
  destruct (@click_absent_selector sim_env (ClickParams.mk "#missing" None)
              None true (sim_initial sim_world) 1%nat sim_acquired sim_world
              eq_refl eq_refl)
    as (Hthrow & Hworld & _ & _ & _ & Hnone & _).
  split; [reflexivity |]. split; [reflexivity |].
  split; [exact Hthrow |]. split; [exact Hworld | exact Hnone].
Defined.

(** C8, the failing run: a browser is held and its release is rejected.
    [browser_close] throws the rejection and clears neither handle; on
    the same session the shutdown handler returns and clears both. *)
Theorem close_raises_when_release_fails :
  fst (run Close None (sim_ready sim_close_broken))
    = Throw (protocol_error "Connection closed") /\
  browser (snd (run Close None (sim_ready sim_close_broken))) = Some 1%nat /\
  page (snd (run Close None (sim_ready sim_close_broken))) = Some 1%nat /\
  fst (@session_shutdown sim_env (sim_ready sim_close_broken)) = Ok tt /\
  browser (snd (@session_shutdown sim_env (sim_ready sim_close_broken)))
    = None /\
  page (snd (@session_shutdown sim_env (sim_ready sim_close_broken))) = None.
Proof. vm_compute. repeat split. Qed.

(** C9, the failing run: two [browser_close] in a row on a held browser
    whose release is rejected.  Both throw and both handles stay set. *)
Theorem close_twice_raises_twice :
  fst (run Close None (sim_ready sim_close_broken))
    = Throw (protocol_error "Connection closed") /\
  fst (run Close None (snd (run Close None (sim_ready sim_close_broken))))
    = Throw (protocol_error "Connection closed") /\
  browser (snd (run Close None
                  (snd (run Close None (sim_ready sim_close_broken)))))
    = Some 1%nat /\
  page (snd (run Close None
               (snd (run Close None (sim_ready sim_close_broken)))))
    = Some 1%nat.
Proof. vm_compute. repeat split. Qed.

(** On a session whose release succeeds, and on a session never opened,
    closing twice succeeds twice and leaves no handle. *)
Lemma close_twice_on_healthy_session :
  fst (run Close None (sim_ready sim_world)) = Ok browser_closed /\
  fst (run Close None (snd (run Close None (sim_ready sim_world))))
    = Ok browser_closed /\
  browser (snd (run Close None (snd (run Close None (sim_ready sim_world)))))
    = None /\
  page (snd (run Close None (snd (run Close None (sim_ready sim_world)))))
    = None /\
  run Close None (sim_initial sim_world)
    = (Ok browser_closed, sim_initial sim_world).
Proof. vm_compute. repeat split. Qed.

(** X1, witness: waiting for a selector the simulated page never shows;
    the wait is rejected after the four calls of the acquisition. *)
Lemma no_call_after_rejection_witness :
  exists pre ev e,
    new_events (sim_initial sim_world)
      (snd (run wait_for_missing None (sim_initial sim_world)))
      = pre ++ [ev] /\
    List.length pre = 4%nat /\
    ev_err ev = Some e /\
    fst (run wait_for_missing None (sim_initial sim_world)) = Throw e.
Proof.
  eexists (firstn 4 (log (snd (run wait_for_missing None
                                  (sim_initial sim_world))))), _, _.
  assert (Hsplit :
    new_events (sim_initial sim_world)
      (snd (run wait_for_missing None (sim_initial sim_world)))
    = firstn 4 (log (snd (run wait_for_missing None (sim_initial sim_world))))
      ++ [Ev (existT _ _ (WaitForSelector 1%nat "#missing" (Some 10)))
             (Some (mkErr "TimeoutError"
                      "Waiting for selector `#missing` failed"))])
    by (vm_compute; reflexivity).
  split; [exact Hsplit |]. split; [reflexivity |]. split; [reflexivity |].
  exact (proj2 (@no_call_after_rejection sim_env wait_for_missing None true
                  (sim_initial sim_world) _ _ [] _ Hsplit eq_refl)).
Defined.

(** X2, witness: a click on the simulated page's button, browser held. *)
Lemma page_actions_never_close_witness :
  filter is_close
    (new_events (sim_ready sim_world)
       (snd (run (ClickElement (ClickParams.mk "#submit" None)) None
                 (sim_ready sim_world)))) = [] /\
  browser (snd (run (ClickElement (ClickParams.mk "#submit" None)) None
                    (sim_ready sim_world))) = Some 1%nat.
Proof.
  destruct (@page_actions_never_close sim_env
              (ClickElement (ClickParams.mk "#submit" None)) None true
              (sim_ready sim_world) eq_refl) as [Hnone Hheld].
  split; [exact Hnone |]. exact (proj1 (Hheld 1%nat eq_refl)).
Defined.

(** X4, witness: a fresh session through a navigation, a click that
    fails, a close and one more navigation. *)
Lemma well_formed_kept_witness :
  well_formed (sim_initial sim_world) /\
  well_formed (@run_all sim_env
                 [navigate_example; click_missing; Close; navigate_example]
                 None true (sim_initial sim_world)).
Proof.
  assert (Hwf : well_formed (sim_initial sim_world)) by (intro; reflexivity).
  split; [exact Hwf |].
  exact (proj1 (@well_formed_kept sim_env
                  [navigate_example; click_missing; Close; navigate_example]
                  None true (sim_initial sim_world) Hwf)).
Defined.

(** X5, witness: the first [getPage] on the simulated machine. *)
Lemma getPage_acquires_witness :
  @getPage sim_env (sim_initial sim_world) = (Ok (Some 1%nat), sim_acquired) /\
  new_events (sim_initial sim_world) sim_acquired =
    [ Ev (existT _ _ (Launch true "/usr/bin/chromium" launch_args)) None;
      Ev (existT _ _ (NewPage 1%nat)) None;
      Ev (existT _ _ (SetViewport 1%nat 1920 1080)) None;
      Ev (existT _ _ (SetUserAgent 1%nat user_agent)) None ].
Proof.
  destruct (@getPage_acquires sim_env (sim_initial sim_world) (Some 1%nat)
              sim_acquired eq_refl eq_refl)
    as (path & b & pg & Hfind & Hp & Hb & _ & Hnew).
  split; [reflexivity |].
  injection Hfind as <-. injection Hp as <-. injection Hb as <-.
  exact Hnew.
Defined.

(** X6, witness: the machine whose [setViewport] is rejected. *)
Lemma getPage_viewport_rejected_witness :
  fst (@getPage sim_env_no_viewport sim_initial_no_viewport)
    = Throw (protocol_error "Emulation.setDeviceMetricsOverride failed") /\
  page (snd (@getPage sim_env_no_viewport sim_initial_no_viewport))
    = Some 1%nat /\
  fst (@getPage sim_env_no_viewport
         (snd (@getPage sim_env_no_viewport sim_initial_no_viewport)))
    = Ok (Some 1%nat).
Proof.
  destruct (@getPage_viewport_rejected sim_env_no_viewport
              sim_initial_no_viewport "/usr/bin/chromium" 1%nat sim_world
              1%nat sim_world
              (protocol_error "Emulation.setDeviceMetricsOverride failed")
              sim_world eq_refl eq_refl eq_refl eq_refl eq_refl)
    as (Hthrow & _ & Hpage & _ & Hnext).
  split; [exact Hthrow |]. split; [exact Hpage |].
  rewrite Hnext. reflexivity.
Defined.

(** X7, witness: close on a held session of the simulated machine. *)
Lemma close_then_getPage_relaunches_witness :
  browser (snd (@browser_close sim_env (sim_ready sim_world))) = None /\
  exists o rest,
    new_events (snd (@browser_close sim_env (sim_ready sim_world)))
      (snd (@getPage sim_env
              (snd (@browser_close sim_env (sim_ready sim_world)))))
    = Ev (existT _ _ (Launch true "/usr/bin/chromium" launch_args)) o :: rest.
Proof.
  destruct (@close_then_getPage_relaunches sim_env (sim_ready sim_world)
              1%nat sim_world "/usr/bin/chromium" eq_refl eq_refl eq_refl)
    as (_ & Hb & _ & Hnew).
  split; [exact Hb | exact Hnew].
Defined.

(** X8, witness: the selector [#missing] on the simulated page. *)
Lemma absent_selector_fails_fast_witness :
  fst (run type_into_missing None (sim_initial sim_world))
    = Throw (Error "Element not found: #missing") /\
  fst (run (GetText (GetTextParams.mk (Some "#missing") None)) None
           (sim_initial sim_world))
    = Throw (Error "Element not found: #missing") /\
  fst (run (Screenshot (ScreenshotParams.mk (Some true) (Some "#missing")))
           None (sim_initial sim_world))
    = Throw (Error "Element not found: #missing").
Proof.
  assert (Hsel : "#missing"%string <> ""%string) by discriminate.
  destruct (@absent_selector_fails_fast sim_env "#missing" "secret"
              (Some true) (Some true) None (Some true) None true
              (sim_initial sim_world) 1%nat sim_acquired sim_world
              Hsel eq_refl eq_refl)
    as ((H1 & _) & (H2 & _) & (H3 & _)).
  split; [exact H1 |]. split; [exact H2 | exact H3].
Defined.

(** X9, witness: typing into the button of the simulated page with both
    flags set; the four calls of the script follow the probe. *)
Lemma type_follows_script_witness :
  map ev_call
      (new_events sim_acquired
         (snd (run type_into_submit None (sim_initial sim_world))))
    = existT _ _ (Query 1%nat "#submit")
        :: type_script (TypeParams.mk "#submit" "secret" (Some true) (Some true))
                       7%nat.
Proof.
  destruct (@type_follows_script sim_env
              (TypeParams.mk "#submit" "secret" (Some true) (Some true))
              None true (sim_initial sim_world) 1%nat sim_acquired 7%nat
              sim_world eq_refl eq_refl)
    as (done & rest & Hdone & Hscript & Hall).
  rewrite (Hall _ eq_refl), app_nil_r in Hscript.
  rewrite Hscript. exact Hdone.
Defined.

(** X10, witness: six characters typed, echoed whole. *)
Lemma type_echo_capped_witness :
  exists env shown,
    fst (run type_into_submit None (sim_initial sim_world)) = Ok env /\
    content env =
      [ Text (check_mark ++ " Typed into: #submit")%string;
        Text ("Text: " ++ shown)%string ] /\
    shown = "secret"%string.
Proof.
  destruct (@type_echo_capped sim_env
              (TypeParams.mk "#submit" "secret" (Some true) (Some true))
              None true (sim_initial sim_world) _ eq_refl)
    as (shown & Hcontent & _ & _ & Hshort & _).
  eexists _, shown. split; [reflexivity |]. split; [exact Hcontent |].
  apply Hshort. vm_compute. discriminate.
Defined.

(** X11, witness: scrolling "left" on the simulated page. *)
Lemma scroll_unknown_direction_witness :
  fst (run scroll_left None (sim_initial sim_world)) =
    Ok (mkEnvelope
          [ Text (check_mark ++ " Scrolled left (position: 0px)")%string ]
          [ ("direction"%string, JStr "left");
            ("scrollPosition"%string, JNum 0) ]
          None) /\
  new_events sim_acquired (snd (run scroll_left None (sim_initial sim_world)))
    = [Ev (existT _ _ (ScrollY 1%nat)) None].
Proof.
  destruct (@scroll_unknown_direction sim_env "left" (Some 300)
              (sim_initial sim_world) 1%nat sim_acquired 0 sim_world
              ltac:(discriminate) ltac:(discriminate) ltac:(discriminate)
              ltac:(discriminate) eq_refl eq_refl)
    as ((shown & Hret & Hshown) & _ & Hnew).
  split; [| exact Hnew].
  unfold run, scroll_left. cbn [execute]. rewrite Hret.
  rewrite (Hshown ltac:(vm_compute; discriminate)). reflexivity.
Defined.

(** X12, witness: scrolling to the top with two different amounts. *)
Lemma scroll_amount_only_for_down_and_up_witness :
  @browser_scroll sim_env (ScrollParams.mk "top" (Some 5)) =
  @browser_scroll sim_env (ScrollParams.mk "top" None).
Proof.
  exact (@scroll_amount_only_for_down_and_up sim_env "top" (Some 5) None
           ltac:(discriminate) ltac:(discriminate)).
Defined.

(** X15, witness: a full-page screenshot asked of the simulated page's
    button captures the button. *)
Lemma screenshot_of_element_witness :
  fst (run screenshot_submit None (sim_initial sim_world)) =
    Ok (mkEnvelope
          [ Text (check_mark ++ " Screenshot of element: #submit")%string;
            Image "iVBORw0KGgo=" "image/png" ]
          [ ("fullPage"%string, JBool true);
            ("selector"%string, JStr "#submit") ]
          None).
Proof.
  exact (proj1 (@screenshot_of_element sim_env "#submit" (Some true) None true
                  (sim_initial sim_world) 1%nat sim_acquired 7%nat sim_world
                  "iVBORw0KGgo=" sim_world
                  ltac:(discriminate) eq_refl eq_refl eq_refl)).
Defined.

(** X17, witness: the navigation of the simulated browser. *)
Lemma navigate_reports_final_url_witness :
  fst (run navigate_example None (sim_initial sim_world)) =
    Ok (mkEnvelope
          [ Text (check_mark ++ " Loaded: Example Domain")%string;
            Text "URL: https://example.com/" ]
          [ ("title"%string, JStr "Example Domain");
            ("url"%string, JStr "https://example.com/") ]
          None).
Proof.
  exact (proj1 (@navigate_reports_final_url sim_env
                  (NavigateParams.mk "https://example.com/" (Some true))
                  None true (sim_initial sim_world) 1%nat sim_acquired
                  sim_world "Example Domain" sim_world
                  "https://example.com/" sim_world
                  eq_refl eq_refl eq_refl eq_refl)).
Defined.

(** X18, witness: waiting for the button the simulated page shows. *)
Lemma wait_for_outcome_witness :
  fst (run wait_for_submit None (sim_initial sim_world)) =
    Ok (mkEnvelope
          [ Text (check_mark ++ " Element appeared: #submit")%string ]
          [ ("selector"%string, JStr "#submit") ]
          None).
Proof.
  exact (proj2 (@wait_for_outcome sim_env (WaitForParams.mk "#submit" None)
                  None true (sim_initial sim_world) 1%nat sim_acquired
                  eq_refl)).
Defined.

(** X19, witness: a navigation on the session a rejected [newPage] left. *)
Lemma page_actions_on_null_page_witness :
  browser sim_stuck = Some 1%nat /\ page sim_stuck = None /\
  (exists method,
     fst (run navigate_example None sim_stuck) = Throw (null_deref method)) /\
  new_events sim_stuck (snd (run navigate_example None sim_stuck)) = [].
Proof.
  destruct (@page_actions_on_null_page sim_env navigate_example None true
              sim_stuck 1%nat eq_refl eq_refl eq_refl) as (H1 & H2 & _).
  split; [reflexivity |]. split; [reflexivity |].
  split; [exact H1 | exact H2].
Defined.

(** C1, witness: the click on a selector that matches nothing. *)
Lemma failures_are_raised_witness :
  is_page_action click_missing = true /\
  fst (run click_missing None (sim_initial sim_world))
    = Throw (element_not_found "#missing") /\
  err_message (element_not_found "#missing")
    = "Element not found: #missing"%string.
Proof.
  destruct (@failures_are_raised sim_env click_missing None true
              (sim_initial sim_world) eq_refl) as (_ & _ & _ & _ & Hprobe).
  destruct (Hprobe 1%nat sim_acquired "#missing"%string sim_world
              eq_refl eq_refl eq_refl) as (Hthrow & _ & Hmsg).
  split; [reflexivity |]. split; [exact Hthrow | exact Hmsg].
Defined.



(** X13, witness: the debug capture of the simulated page, without and
    with its HTML. *)
Lemma debug_envelope_witness :
  fst (run debug_plain None (sim_initial sim_world)) =
    Ok (mkEnvelope
          (debug_items "Example Domain" "https://example.com/" "iVBORw0KGgo=")
          [ ("title"%string, JStr "Example Domain");
            ("url"%string, JStr "https://example.com/") ]
          None) /\
  fst (run debug_with_html None (sim_initial sim_world)) =
    Ok (mkEnvelope
          (debug_items "Example Domain" "https://example.com/" "iVBORw0KGgo="
             ++ [Text (html_preview "<html><body>hello</body></html>")])
          [ ("title"%string, JStr "Example Domain");
            ("url"%string, JStr "https://example.com/") ]
          None).
Proof.
  split.
  - destruct (@debug_envelope sim_env (DebugParams.mk None) None true
                (sim_initial sim_world) 1%nat sim_acquired "iVBORw0KGgo="
                sim_world "Example Domain" sim_world "https://example.com/"
                sim_world eq_refl eq_refl eq_refl eq_refl) as (Hplain & _).
    exact (proj1 (Hplain eq_refl)).
  - destruct (@debug_envelope sim_env (DebugParams.mk (Some true)) None true
                (sim_initial sim_world) 1%nat sim_acquired "iVBORw0KGgo="
                sim_world "Example Domain" sim_world "https://example.com/"
                sim_world eq_refl eq_refl eq_refl eq_refl) as (_ & Hhtml & _).
    exact (proj1 (Hhtml "<html><body>hello</body></html>"%string sim_world
                    eq_refl eq_refl)).
Defined.

(** X14, witness: a screenshot and a text read with selector "" on the
    simulated page, which has no element for it. *)
Lemma empty_selector_is_no_selector_witness :
  fst (@driver sim_env _ (Query 1%nat "") sim_world) = Ok None /\
  fst (run screenshot_empty_selector None (sim_initial sim_world)) =
    Ok (mkEnvelope
          [ Text (check_mark ++ " Viewport screenshot")%string;
            Image "iVBORw0KGgo=" "image/png" ]
          [ ("fullPage"%string, JUndefined);
            ("selector"%string, JStr "") ]
          None) /\
  fst (run get_text_empty_selector None (sim_initial sim_world)) =
    Ok (mkEnvelope
          [ Text "hello" ]
          [ ("length"%string, JNum 5);
            ("truncated"%string, JBool false);
            ("url"%string, JStr "https://example.com/") ]
          None).
Proof.
  destruct (@empty_selector_is_no_selector sim_env None None None true
              (sim_initial sim_world) 1%nat sim_acquired eq_refl)
    as (Hshot & Htext).
  split; [reflexivity |]. split.
  - exact (proj1 (Hshot "iVBORw0KGgo="%string sim_world eq_refl)).
  - exact (proj1 (Htext "hello"%string sim_world
                    "https://example.com/"%string sim_world
                    eq_refl eq_refl)).
Defined.
